(** * azure-external-issuer: the certificate-request reconciler and its signer

    A shallow embedding of the Go sources
      - package controllers ([CertificateRequestReconciler.Reconcile]),
      - package signer ([NewSigner], [Sign], [CheckIssuer], [getVaultURL],
        [getKeyvaultToken], [getServicePrincipalToken],
        [parseCloudEnvironment], [getConfigFromSecretData]),
      - package util ([GetSpecAndStatus], [SetReadyCondition],
        [GetReadyCondition], [IsReady]),
    followed by the properties of the specification that concern them.

    Go strings are byte sequences: they are Rocq [string]s (one [ascii] per
    byte) and [len] is the byte length.  A [[]byte] is a [list byte], a
    [map[string][]byte] is a [gmap string (list byte)], a nil slice is the
    empty list and the nil error is [None]. *)

From Stdlib Require Import ZArith Strings.String Strings.Ascii Strings.Byte List Bool Lia.
From stdpp Require Import gmap strings.
Import ListNotations.

Local Open Scope string_scope.
Local Open Scope Z_scope.

(** ** Go values shared by all packages *)

Module Go.

(** The two shapes of error value the program builds: [errors.New] and
    [fmt.Errorf] without [%w] give an [errorString]; [fmt.Errorf] with [%w]
    gives a [wrapError] that remembers the wrapped error. *)
Inductive error : Type :=
| errorString (s : string)
| wrapError (msg : string) (err : error).

Definition Error (e : error) : string :=
  match e with
  | errorString s => s
  | wrapError msg _ => msg
  end.

(** A [(T, error)] return where the callers look at the value only when the
    error is nil. *)
Inductive result (A : Type) : Type :=
| Ok (a : A)
| Err (e : error).
Arguments Ok {A} a.
Arguments Err {A} e.

Definition is_Err {A} (r : result A) : bool :=
  match r with Ok _ => false | Err _ => true end.

(** A call either returns or panics (a failed bounds check, a failed
    single-value type assertion). *)
Inductive outcome (A : Type) : Type :=
| Return (a : A)
| Panic (msg : string).
Arguments Return {A} a.
Arguments Panic {A} msg.

(** [len(s)] *)
Definition len (s : string) : Z := Z.of_nat (String.length s).

(** [s[i]], with the bounds check of the runtime: [None] is the panic. *)
Definition index (s : string) (i : Z) : option ascii :=
  if (0 <=? i) && (i <? len s) then String.get (Z.to_nat i) s else None.

(** [s[:n]] for [0 <= n <= len(s)] *)
Definition slice_to (s : string) (n : Z) : string :=
  String.substring 0 (Z.to_nat n) s.

(** [string(b)] for [b []byte] and [[]byte(s)] *)
Definition string_of_bytes (b : list byte) : string := string_of_list_byte b.
Definition bytes_of_string (s : string) : list byte := list_byte_of_string s.

(** [strings.Contains(s, sub)] *)
Fixpoint Contains (s sub : string) : bool :=
  String.prefix sub s ||
  match s with
  | EmptyString => false
  | String _ s' => Contains s' sub
  end.

End Go.
Import Go.

(** [utilerrors.NewAggregate]: the nil entries are dropped; the result is nil
    when nothing is left, an aggregate of the others otherwise. *)
Inductive ReconcileError : Type :=
| Plain (e : error)
| Aggregate (errs : list error).

Definition NewAggregate (errlist : list (option error)) : option ReconcileError :=
  match omap id errlist with
  | [] => None
  | errs => Some (Aggregate errs)
  end.

(** ** Libraries the program calls

    Functions of the Go standard library and of the Azure, cert-manager and
    Kubernetes modules whose code is not part of the repository.  Their results
    are left open; the program is embedded over any implementation of them. *)

Module azure.
(** [azure.Environment], the endpoints the program reads *)
Record Environment : Type := {
  ActiveDirectoryEndpoint : string;
  KeyVaultEndpoint : string;
  KeyVaultDNSSuffix : string;
  ServiceManagementEndpoint : string
}.
End azure.

(** What [Sign] reads from a decoded PKCS#10 request *)
Record CertificateRequestX509 : Type := {
  RawSubject : list byte;
  DNSNames : list string
}.

(** [kv.CertificateCreateParameters], as [Sign] fills it *)
Record CertificateCreateParameters : Type := {
  Subject : string;
  SubjectAlternativeNames : list string;
  IssuerParametersName : string
}.

Class Libraries : Type := {
  (** [strconv.Quote], the rendering of [%q] *)
  Quote : string -> string;
  (** [azure.PublicCloud] and [azure.EnvironmentFromName] *)
  PublicCloud : azure.Environment;
  EnvironmentFromName : string -> result azure.Environment;
  (** [adal.OAuthConfig], [adal.NewOAuthConfig], [adal.GetMSIVMEndpoint] *)
  OAuthConfig : Type;
  NewOAuthConfig : string -> string -> result OAuthConfig;
  GetMSIVMEndpoint : result string;
  (** [adal.OAuthTokenProvider] and the three constructors of
      [adal.ServicePrincipalToken] *)
  TokenProvider : Type;
  NewServicePrincipalTokenFromMSIWithUserAssignedID :
    string -> string -> string -> result TokenProvider;
  NewServicePrincipalTokenFromMSI : string -> string -> result TokenProvider;
  NewServicePrincipalToken :
    OAuthConfig -> string -> string -> string -> result TokenProvider;
  (** [autorest.Authorizer], [autorest.NewBearerAuthorizer] *)
  Authorizer : Type;
  NewBearerAuthorizer : TokenProvider -> Authorizer;
  (** [kv.BaseClient]: [kv.New], [AddToUserAgent], the [Authorizer] field,
      [CreateCertificate] and [GetCertificateIssuer] (their responses are
      discarded by the program, only the error is kept) *)
  BaseClient : Type;
  kv_New : BaseClient;
  AddToUserAgent : BaseClient -> string -> BaseClient * option error;
  set_Authorizer : BaseClient -> Authorizer -> BaseClient;
  CreateCertificate :
    BaseClient -> string -> string -> CertificateCreateParameters -> option error;
  GetCertificateIssuer : BaseClient -> string -> string -> option error;
  (** [pki.DecodeX509CertificateRequestBytes] *)
  DecodeX509CertificateRequestBytes : list byte -> result CertificateRequestX509
}.

(** The double quote, which [%q] and [strconv] put around a string *)
Definition dquote : string := String (ascii_of_nat 34) EmptyString.

(** ** package signer: config.go *)

Module signer.
Import azure.

Definition cloudKey : string := "cloud".
Definition tenantIDKey : string := "tenantID".
Definition aadClientIDKey : string := "aadClientID".
Definition aadClientSecretKey : string := "aadClientSecret".
Definition useManagedIdentityKey : string := "useManagedIdentity".
Definition userAssignedIdentityIDKey : string := "userAssignedIdentity".

Record authConfig : Type := {
  cloud : string;
  tenantID : string;
  aadClientID : string;
  aadClientSecret : string;
  useManagedIdentity : bool;
  userAssignedIdentityID : string
}.

(** [data[key]]: the nil slice for a key that is not in the map *)
Definition at_key (data : gmap string (list byte)) (key : string) : list byte :=
  default [] (data !! key).

Section WithLibraries.
Context {L : Libraries}.

(** [strconv.ParseBool] of the Go standard library; its error is a
    [*strconv.NumError] with [ErrSyntax]. *)
Definition ParseBool (str : string) : result bool :=
  if existsb (String.eqb str) ["1"; "t"; "T"; "true"; "TRUE"; "True"] then Ok true
  else if existsb (String.eqb str) ["0"; "f"; "F"; "false"; "FALSE"; "False"] then Ok false
  else Err (errorString
              ("strconv.ParseBool: parsing " +:+ Quote str +:+ ": invalid syntax")).

Definition getConfigFromSecretData (data : gmap string (list byte)) : result authConfig :=
  let cloud := string_of_bytes (at_key data cloudKey) in
  let tenantID := string_of_bytes (at_key data tenantIDKey) in
  let aadClientID := string_of_bytes (at_key data aadClientIDKey) in
  let aadClientSecret := string_of_bytes (at_key data aadClientSecretKey) in
  let userAssignedIdentityID := string_of_bytes (at_key data userAssignedIdentityIDKey) in
  let config useManagedIdentity :=
    {| cloud := cloud; tenantID := tenantID; aadClientID := aadClientID;
       aadClientSecret := aadClientSecret; useManagedIdentity := useManagedIdentity;
       userAssignedIdentityID := userAssignedIdentityID |} in
  if negb (String.eqb (string_of_bytes (at_key data useManagedIdentityKey)) "") then
    match ParseBool (string_of_bytes (at_key data useManagedIdentityKey)) with
    | Err err => Err (errorString ("failed to parse auth config: " +:+ Error err))
    | Ok b => Ok (config b)
    end
  else Ok (config false).


(** ** package signer: the signer *)

Record caSigner : Type := {
  baseClient : BaseClient;
  vaultURL : string
}.

(** parseCloudEnvironment returns azure environment by name *)
Definition parseCloudEnvironment (cloudName : string) : result Environment :=
  if String.eqb cloudName "" then Ok PublicCloud
  else EnvironmentFromName cloudName.

(** A byte of the class [[-A-Za-z0-9]] *)
Definition in_class (c : ascii) : bool :=
  let n := Z.of_nat (nat_of_ascii c) in
  (n =? 45) || ((65 <=? n) && (n <=? 90)) || ((97 <=? n) && (n <=? 122))
  || ((48 <=? n) && (n <=? 57)).

(** [regexp.MustCompile(`^[-A-Za-z0-9]+$`).MatchString]: the whole text is
    one or more bytes of the class.  Without the [m] flag [$] matches at the
    end of the text only, and no byte of a non-ASCII rune is in the class. *)
Definition isValid (s : string) : bool :=
  negb (String.eqb s "") && forallb in_class (list_ascii_of_string s).

Definition getVaultURL (azureEnvironment : Environment) (vaultName : string)
  : result string :=
  (* Key Vault name must be a 3-24 character string *)
  if (len vaultName <? 3) || (len vaultName >? 24) then
    Err (errorString ("invalid vault name: " +:+ Quote vaultName
                      +:+ ", must be between 3 and 24 chars"))
  else if negb (isValid vaultName) then
    Err (errorString ("invalid vault name: " +:+ Quote vaultName
                      +:+ ", must match [-a-zA-Z0-9]{3,24}"))
  else
    let vaultDNSSuffixValue := KeyVaultDNSSuffix azureEnvironment in
    Ok ("https://" +:+ vaultName +:+ "." +:+ vaultDNSSuffixValue +:+ "/").

(** getServicePrincipalToken creates a new service principal token based on
    the configuration *)
Definition getServicePrincipalToken (config : authConfig) (env : Environment)
    (resource : string) : result TokenProvider :=
  match NewOAuthConfig (ActiveDirectoryEndpoint env) (tenantID config) with
  | Err err =>
      Err (errorString ("failed to create OAuth config, error: " +:+ Error err))
  | Ok oauthConfig =>
      if useManagedIdentity config then
        match GetMSIVMEndpoint with
        | Err err =>
            Err (errorString
                   ("failed to get managed service identity endpoint, error: "
                    +:+ Error err))
        | Ok msiEndpoint =>
            (* using user-assigned managed identity to access keyvault *)
            if len (userAssignedIdentityID config) >? 0 then
              NewServicePrincipalTokenFromMSIWithUserAssignedID
                msiEndpoint (ServiceManagementEndpoint env)
                (userAssignedIdentityID config)
            else
              (* using system-assigned managed identity to access keyvault *)
              NewServicePrincipalTokenFromMSI msiEndpoint resource
        end
      else if (len (aadClientID config) >? 0) && (len (aadClientSecret config) >? 0) then
        (* using service-principal to access the keyvault instance *)
        NewServicePrincipalToken oauthConfig (aadClientID config)
          (aadClientSecret config) resource
      else Err (errorString "no credentials provided for accessing keyvault")
  end.

(** The panic of [kvEndPoint[len(kvEndPoint)-1]] on the empty string *)
Definition index_out_of_range : string :=
  "runtime error: index out of range [-1]".

(** getKeyvaultToken returns token for Keyvault endpoint *)
Definition getKeyvaultToken (config : authConfig) (env : Environment)
  : outcome (result Authorizer) :=
  let kvEndPoint := KeyVaultEndpoint env in
  match index kvEndPoint (len kvEndPoint - 1) with
  | None => Panic index_out_of_range
  | Some last =>
      let kvEndPoint :=
        if Ascii.eqb "/" last then slice_to kvEndPoint (len kvEndPoint - 1)
        else kvEndPoint in
      match getServicePrincipalToken config env kvEndPoint with
      | Err err => Return (Err err)
      | Ok servicePrincipalToken =>
          Return (Ok (NewBearerAuthorizer servicePrincipalToken))
      end
  end.

Definition NewSigner (creds : gmap string (list byte)) (vaultName : string)
  : outcome (result caSigner) :=
  let kvClient := kv_New in
  match AddToUserAgent kvClient "cert-manager-issuer" with
  | (_, Some err) =>
      Return (Err (errorString
                     ("failed to add user agent to keyvault client, error: "
                      +:+ Error err)))
  | (kvClient, None) =>
      (* get auth config *)
      match getConfigFromSecretData creds with
      | Err err => Return (Err err)
      | Ok config =>
          (* get azure cloud environment name *)
          match parseCloudEnvironment (cloud config) with
          | Err err => Return (Err err)
          | Ok env =>
              (* get keyvault url *)
              match getVaultURL env vaultName with
              | Err err => Return (Err err)
              | Ok vaultURL =>
                  match getKeyvaultToken config env with
                  | Panic msg => Panic msg
                  | Return (Err err) => Return (Err err)
                  | Return (Ok authorizer) =>
                      Return (Ok {| baseClient := set_Authorizer kvClient authorizer;
                                    vaultURL := vaultURL |})
                  end
              end
          end
      end
  end.

(** CheckIssuer gets the issuer name provided in the Issuer/ClusterIssuer
    custom resource *)
Definition CheckIssuer (s : caSigner) (issuerName : string) : option error :=
  GetCertificateIssuer (baseClient s) (vaultURL s) issuerName.

Definition Sign (s : caSigner) (certificateSigningRequest : list byte)
    (name issuerName : string) : result (list byte) :=
  match DecodeX509CertificateRequestBytes certificateSigningRequest with
  | Err err => Err (errorString ("failed to decode CSR: " +:+ Error err))
  | Ok csr =>
      let params :=
        {| Subject := string_of_bytes (RawSubject csr);
           SubjectAlternativeNames := DNSNames csr;
           IssuerParametersName := issuerName |} in
      match CreateCertificate (baseClient s) (vaultURL s) name params with
      | Some err =>
          Err (errorString ("failed to create certificate " +:+ name +:+ ": "
                            +:+ Error err))
      | None => Ok []    (* return nil, nil *)
      end
  end.

End WithLibraries.
End signer.

(** ** API types

    [metav1.Time] is a point in time, a number of seconds; a nil [*metav1.Time]
    is [None]. *)

Definition Time : Type := Z.

Module types.
Record NamespacedName : Type := {
  Namespace : string;
  Name : string
}.

(** [NamespacedName.String], the rendering of [%s] *)
Definition String_ (n : NamespacedName) : string :=
  Namespace n +:+ "/" +:+ Name n.
End types.

(** api/v1alpha1: the fields of the issuer types the program reads *)
Module v1alpha1.

Definition IssuerConditionReady : string := "Ready".
Definition ConditionTrue : string := "True".
Definition ConditionFalse : string := "False".
Definition ConditionUnknown : string := "Unknown".

Record IssuerSpec : Type := {
  AuthSecretName : string;
  KeyvaultName : string;
  IssuerName : string
}.

Record IssuerCondition : Type := {
  Type_ : string;
  Status : string;
  LastTransitionTime : option Time;
  Reason : string;
  Message : string
}.

Record IssuerStatus : Type := {
  Conditions : list IssuerCondition
}.

(** The dynamic types a [client.Object] of the scheme can have: the two the
    program handles, and any other, of which only the renderings under [%v]
    and [%t] matter. *)
Inductive Object : Type :=
| Issuer (Spec : IssuerSpec) (Status : IssuerStatus)
| ClusterIssuer (Spec : IssuerSpec) (Status : IssuerStatus)
| Other (fmt_v fmt_t : string).

End v1alpha1.

(** ** package util *)

Module util.
Import v1alpha1.

Definition GetSpecAndStatus (issuer : Object) : result (IssuerSpec * IssuerStatus) :=
  match issuer with
  | Issuer spec status => Ok (spec, status)
  | ClusterIssuer spec status => Ok (spec, status)
  | Other _ fmt_t => Err (errorString ("not an issuer type: " +:+ fmt_t))
  end.

Definition isReadyType (c : IssuerCondition) : Prop := Type_ c = IssuerConditionReady.

#[global] Instance isReadyType_dec c : Decision (isReadyType c).
Proof. unfold isReadyType. apply _. Defined.

(** The first condition of type Ready, copied *)
Definition GetReadyCondition (status : IssuerStatus) : option IssuerCondition :=
  snd <$> list_find isReadyType (Conditions status).

(** [now] is what [metav1.Now()] returns when it is called. *)
Definition SetReadyCondition (now : Time) (status : IssuerStatus)
    (conditionStatus reason message : string) : IssuerStatus :=
  let '(ready, conditions) :=
    match GetReadyCondition status with
    | None =>
        let ready := {| Type_ := IssuerConditionReady; Status := "";
                        LastTransitionTime := None; Reason := ""; Message := "" |} in
        (ready, (Conditions status ++ [ready])%list)
    | Some ready => (ready, Conditions status)
    end in
  let '(ready_Status, ready_LastTransitionTime) :=
    if negb (String.eqb (Status ready) conditionStatus)
    then (conditionStatus, Some now)
    else (Status ready, LastTransitionTime ready) in
  let ready := {| Type_ := Type_ ready; Status := ready_Status;
                  LastTransitionTime := ready_LastTransitionTime;
                  Reason := reason; Message := message |} in
  (* for i, c := range status.Conditions: the first Ready one is overwritten *)
  match list_find isReadyType conditions with
  | Some (i, _) => {| Conditions := <[i := ready]> conditions |}
  | None => {| Conditions := conditions |}
  end.

Definition IsReady (status : IssuerStatus) : bool :=
  match GetReadyCondition status with
  | Some c => String.eqb (Status c) ConditionTrue
  | None => false
  end.

End util.

(** ** cert-manager's API types *)

Module cmmeta.
Definition ConditionTrue : string := "True".
Definition ConditionFalse : string := "False".
Definition ConditionUnknown : string := "Unknown".

Record ObjectReference : Type := {
  Name : string;
  Kind : string;
  Group : string
}.
End cmmeta.

Module cmapi.

Definition CertificateRequestConditionReady : string := "Ready".
Definition CertificateRequestConditionApproved : string := "Approved".
Definition CertificateRequestConditionDenied : string := "Denied".

Definition CertificateRequestReasonPending : string := "Pending".
Definition CertificateRequestReasonFailed : string := "Failed".
Definition CertificateRequestReasonIssued : string := "Issued".
Definition CertificateRequestReasonDenied : string := "Denied".

Record CertificateRequestCondition : Type := {
  Type_ : string;
  Status : string;
  LastTransitionTime : option Time;
  Reason : string;
  Message : string
}.

Record CertificateRequestSpec : Type := {
  IssuerRef : cmmeta.ObjectReference;
  Request : list byte
}.

Record CertificateRequestStatus : Type := {
  Conditions : list CertificateRequestCondition;
  Certificate : list byte;
  FailureTime : option Time
}.

Record CertificateRequest : Type := {
  Name : string;
  Namespace : string;
  Spec : CertificateRequestSpec;
  Status_ : CertificateRequestStatus
}.

(** Assignments to the status fields of a request *)
Definition set_Conditions (cr : CertificateRequest)
    (cs : list CertificateRequestCondition) : CertificateRequest :=
  {| Name := Name cr; Namespace := Namespace cr; Spec := Spec cr;
     Status_ := {| Conditions := cs; Certificate := Certificate (Status_ cr);
                   FailureTime := FailureTime (Status_ cr) |} |}.

Definition set_Certificate (cr : CertificateRequest) (c : list byte)
  : CertificateRequest :=
  {| Name := Name cr; Namespace := Namespace cr; Spec := Spec cr;
     Status_ := {| Conditions := Conditions (Status_ cr); Certificate := c;
                   FailureTime := FailureTime (Status_ cr) |} |}.

Definition set_FailureTime (cr : CertificateRequest) (t : option Time)
  : CertificateRequest :=
  {| Name := Name cr; Namespace := Namespace cr; Spec := Spec cr;
     Status_ := {| Conditions := Conditions (Status_ cr);
                   Certificate := Certificate (Status_ cr); FailureTime := t |} |}.

End cmapi.

(** ** cert-manager's condition helpers (pkg/api/util)

    The repository calls them and does not contain them. *)

Module cmutil.
Import cmapi.

Definition hasType (conditionType : string) (c : CertificateRequestCondition) : Prop :=
  Type_ c = conditionType.

#[global] Instance hasType_dec t c : Decision (hasType t c).
Proof. unfold hasType. apply _. Defined.

(** Modelled from the spec: cert-manager's [GetCertificateRequestCondition],
    the Get of the ConditionStore: linear lookup, first match by type. *)
Definition GetCertificateRequestCondition (cr : CertificateRequest)
    (conditionType : string) : option CertificateRequestCondition :=
  snd <$> list_find (hasType conditionType) (Conditions (Status_ cr)).

(** Modelled from the spec: cert-manager's [CertificateRequestHasCondition],
    which the Ready gate uses: some condition has the type and the status of
    [c] and, when [c] names a reason, that reason. *)
Definition CertificateRequestHasCondition (cr : CertificateRequest)
    (c : CertificateRequestCondition) : bool :=
  existsb (fun cond =>
             String.eqb (Type_ c) (Type_ cond) && String.eqb (Status c) (Status cond)
             && (String.eqb (Reason c) "" || String.eqb (Reason c) (Reason cond)))
          (Conditions (Status_ cr)).

(** Modelled from the spec: cert-manager's [SetCertificateRequestCondition],
    the Set of the ConditionStore: if no existing condition of that type,
    create one (appended); compare only the status field to decide whether to
    stamp a new transition time; always overwrite reason and message; replace
    in place preserving list order.  [now] is the reading of the helper's
    clock. *)
Definition SetCertificateRequestCondition (now : Time) (cr : CertificateRequest)
    (conditionType status reason message : string) : CertificateRequest :=
  let newCondition lastTransitionTime :=
    {| Type_ := conditionType; Status := status;
       LastTransitionTime := lastTransitionTime;
       Reason := reason; Message := message |} in
  match list_find (hasType conditionType) (Conditions (Status_ cr)) with
  | Some (idx, cond) =>
      let lastTransitionTime :=
        if String.eqb (Status cond) status then LastTransitionTime cond
        else Some now in
      set_Conditions cr (<[idx := newCondition lastTransitionTime]> (Conditions (Status_ cr)))
  | None =>
      set_Conditions cr (Conditions (Status_ cr) ++ [newCondition (Some now)])%list
  end.

(** Modelled from the spec: cert-manager's [CertificateRequestIsDenied] and
    [CertificateRequestIsApproved]: the approval state of a request is kept
    by the approval authority as a condition of type Denied, or Approved,
    with status True. *)
Definition CertificateRequestIsDenied (cr : CertificateRequest) : bool :=
  existsb (fun con => String.eqb (Type_ con) CertificateRequestConditionDenied
                      && String.eqb (Status con) cmmeta.ConditionTrue)
          (Conditions (Status_ cr)).

Definition CertificateRequestIsApproved (cr : CertificateRequest) : bool :=
  existsb (fun con => String.eqb (Type_ con) CertificateRequestConditionApproved
                      && String.eqb (Status con) cmmeta.ConditionTrue)
          (Conditions (Status_ cr)).

End cmutil.

(** ** package controllers: the certificate-request reconciler *)

Module ctrl.
Record Result : Type := {
  Requeue : bool;
  RequeueAfter : Z
}.
(** [ctrl.Result{}] *)
Definition empty : Result := {| Requeue := false; RequeueAfter := 0 |}.
End ctrl.

(** What [r.Scheme.New] hands back: a [runtime.Object] that is a
    [client.Object], or one that is not (a list type of the scheme), on which
    the single-value assertion [issuerRO.(client.Object)] panics. *)
Inductive RuntimeObject : Type :=
| ClientObject (o : v1alpha1.Object)
| NotClientObject.

(** [client.Client] as the reconciler uses it: one [Get] per type of object
    read, [IsNotFound] behind [client.IgnoreNotFound], and [Status().Update]. *)
Record Client : Type := {
  Get_CertificateRequest : types.NamespacedName -> result cmapi.CertificateRequest;
  Get_Issuer : types.NamespacedName -> result (v1alpha1.IssuerSpec * v1alpha1.IssuerStatus);
  Get_ClusterIssuer : types.NamespacedName -> result (v1alpha1.IssuerSpec * v1alpha1.IssuerStatus);
  Get_Secret : types.NamespacedName -> result (gmap string (list byte));
  IsNotFound : error -> bool;
  Status_Update : cmapi.CertificateRequest -> option error
}.

(** Declarations the reconciler uses that are not in the sources at hand:
    the error [errGetAuthSecret] of package controllers and the group of
    [azureissuerv1alpha1.GroupVersion]. *)
Class Package : Type := {
  errGetAuthSecret : error;
  GroupVersion_Group : string
}.

Module controllers.
Import cmapi.

Definition errIssuerRef : error := errorString "error interpreting issuerRef".
Definition errGetIssuer : error := errorString "error getting issuer".
Definition errIssuerNotReady : error := errorString "issuer is not ready".
Definition errSignerBuilder : error := errorString "failed to build the signer".
Definition errSignerSign : error := errorString "failed to sign".

(** CertificateRequestReconciler reconciles a CertificateRequest object.
    [Scheme_New kind] is [r.Scheme.New] at the kind of the issuer group and
    version, [Clock_Now] the reading of [r.Clock]. *)
Record CertificateRequestReconciler : Type := {
  client : Client;
  Scheme_New : string -> result RuntimeObject;
  Clock_Now : Time;
  ClusterResourceNamespace : string;
  CheckApprovedCondition : bool
}.

(** How the body of [Reconcile] ends: by a [return], which assigns the named
    results, or by a panic, which leaves them as they stand. *)
Inductive exit : Type :=
| Returns (result : ctrl.Result) (err : option error)
| Panics (msg : string) (result : ctrl.Result) (err : option error).

(** One invocation, as its caller and the API server see it: what it
    returned, the requests handed to [r.Status().Update] in call order, and
    the local [certificateRequest] at the end (if one was fetched). *)
Record Reconciliation : Type := {
  returned : outcome (ctrl.Result * option ReconcileError);
  updates : list CertificateRequest;
  certificateRequest : option CertificateRequest
}.

Definition type_assertion_failed : string :=
  "interface conversion: runtime.Object is not client.Object: missing method".

Section Reconcile.
Context {L : Libraries} {P : Package}.
Variable r : CertificateRequestReconciler.
(** the reading of cert-manager's clock during this invocation *)
Variable now : Time.

Definition setReadyCondition (certificateRequest : CertificateRequest)
    (status reason message : string) : CertificateRequest :=
  cmutil.SetCertificateRequestCondition now certificateRequest
    CertificateRequestConditionReady status reason message.

(** From the fetched issuer on (the two handled cases of the type switch
    have set [issuerName] and [secretNamespace], and [got] is the result of
    [r.Get(ctx, issuerName, issuer)]).  The source hands [*issuerSpec] to
    [Sign] as its last argument, where [Sign] takes the name of the CA
    issuer; the embedding passes the field [IssuerName] of it. *)
Definition reconcileIssuer (certificateRequest : CertificateRequest)
    (secretNamespace : string) (got : result v1alpha1.Object)
  : CertificateRequest * exit :=
  match got with
  | Err err =>
      (certificateRequest,
       Returns ctrl.empty
         (Some (wrapError (Error errGetIssuer +:+ ": " +:+ Error err) errGetIssuer)))
  | Ok issuer =>
      match util.GetSpecAndStatus issuer with
      | Err err =>
          (setReadyCondition certificateRequest cmmeta.ConditionFalse
             CertificateRequestReasonFailed (Error err),
           Returns ctrl.empty None)
      | Ok (issuerSpec, issuerStatus) =>
          if negb (util.IsReady issuerStatus) then
            (certificateRequest, Returns ctrl.empty (Some errIssuerNotReady))
          else
            let secretName :=
              {| types.Name := v1alpha1.AuthSecretName issuerSpec;
                 types.Namespace := secretNamespace |} in
            match Get_Secret (client r) secretName with
            | Err err =>
                (certificateRequest,
                 Returns ctrl.empty
                   (Some (wrapError
                            (Error errGetAuthSecret +:+ ", secret name: "
                             +:+ types.String_ secretName +:+ ", reason: "
                             +:+ Error err)
                            errGetAuthSecret)))
            | Ok secret_Data =>
                match signer.NewSigner secret_Data (v1alpha1.KeyvaultName issuerSpec) with
                | Panic msg => (certificateRequest, Panics msg ctrl.empty None)
                | Return (Err err) =>
                    (certificateRequest,
                     Returns ctrl.empty
                       (Some (errorString
                                ("failed to get issuer client for "
                                 +:+ v1alpha1.IssuerName issuerSpec +:+ ": "
                                 +:+ Error err))))
                | Return (Ok issuerClient) =>
                    match signer.Sign issuerClient (Request (Spec certificateRequest))
                            (Name certificateRequest) (v1alpha1.IssuerName issuerSpec) with
                    | Err err =>
                        (certificateRequest,
                         Returns ctrl.empty
                           (Some (wrapError (Error errSignerSign +:+ ": " +:+ Error err)
                                    errSignerSign)))
                    | Ok signed =>
                        let certificateRequest := set_Certificate certificateRequest signed in
                        (setReadyCondition certificateRequest cmmeta.ConditionTrue
                           CertificateRequestReasonIssued "Signed",
                         Returns ctrl.empty None)
                    end
                end
            end
      end
  end.

(** From the first statement after the deferred update is set up to the
    [return] (or panic) that ends the body *)
Definition reconcileOwned (certificateRequest : CertificateRequest)
  : CertificateRequest * exit :=
  (* If CertificateRequest has been denied, mark the CertificateRequest as
     Ready=Denied and set FailureTime if not already. *)
  if cmutil.CertificateRequestIsDenied certificateRequest then
    let certificateRequest :=
      match FailureTime (Status_ certificateRequest) with
      | None => set_FailureTime certificateRequest (Some (Clock_Now r))
      | Some _ => certificateRequest
      end in
    let message := "The CertificateRequest was denied by an approval controller" in
    (setReadyCondition certificateRequest cmmeta.ConditionFalse
       CertificateRequestReasonDenied message,
     Returns ctrl.empty None)
  else if CheckApprovedCondition r
          && negb (cmutil.CertificateRequestIsApproved certificateRequest) then
    (* If CertificateRequest has not been approved, exit early. *)
    (certificateRequest, Returns ctrl.empty None)
  else
    (* Add a Ready condition if one does not already exist *)
    match cmutil.GetCertificateRequestCondition certificateRequest
            CertificateRequestConditionReady with
    | None =>
        (setReadyCondition certificateRequest cmmeta.ConditionFalse
           CertificateRequestReasonPending "Initializing",
         Returns ctrl.empty None)
    | Some _ =>
        (* Ignore but log an error if the issuerRef.Kind is unrecognized *)
        match Scheme_New r (cmmeta.Kind (IssuerRef (Spec certificateRequest))) with
        | Err err =>
            let err := wrapError (Error errIssuerRef +:+ ": " +:+ Error err) errIssuerRef in
            (setReadyCondition certificateRequest cmmeta.ConditionFalse
               CertificateRequestReasonFailed (Error err),
             Returns ctrl.empty None)
        | Ok NotClientObject =>
            (certificateRequest, Panics type_assertion_failed ctrl.empty None)
        | Ok (ClientObject issuer) =>
            (* Create a Namespaced name for Issuer and a non-Namespaced name
               for ClusterIssuer *)
            match issuer with
            | v1alpha1.Issuer _ _ =>
                let issuerName :=
                  {| types.Name := cmmeta.Name (IssuerRef (Spec certificateRequest));
                     types.Namespace := Namespace certificateRequest |} in
                let secretNamespace := Namespace certificateRequest in
                reconcileIssuer certificateRequest secretNamespace
                  match Get_Issuer (client r) issuerName with
                  | Ok (spec, status) => Ok (v1alpha1.Issuer spec status)
                  | Err err => Err err
                  end
            | v1alpha1.ClusterIssuer _ _ =>
                let issuerName :=
                  {| types.Name := cmmeta.Name (IssuerRef (Spec certificateRequest));
                     types.Namespace := "" |} in
                let secretNamespace := ClusterResourceNamespace r in
                reconcileIssuer certificateRequest secretNamespace
                  match Get_ClusterIssuer (client r) issuerName with
                  | Ok (spec, status) => Ok (v1alpha1.ClusterIssuer spec status)
                  | Err err => Err err
                  end
            | v1alpha1.Other fmt_v _ =>
                let err := errorString ("unexpected issuer type: " +:+ fmt_v) in
                (setReadyCondition certificateRequest cmmeta.ConditionFalse
                   CertificateRequestReasonFailed (Error err),
                 Returns ctrl.empty None)
            end
        end
    end.

(** The deferred function: always attempt to update the Ready condition.  It
    runs when the body returns and also when it panics; after a panic its
    assignments to the results are lost and the panic goes on. *)
Definition deferredUpdate (certificateRequest : CertificateRequest) (e : exit)
  : Reconciliation :=
  let '(result, err) :=
    match e with
    | Returns result err => (result, err)
    | Panics _ result err => (result, err)
    end in
  let certificateRequest :=
    match err with
    | Some err =>
        setReadyCondition certificateRequest cmmeta.ConditionFalse
          CertificateRequestReasonPending (Error err)
    | None => certificateRequest
    end in
  let '(result, err) :=
    match Status_Update (client r) certificateRequest with
    | Some updateErr => (ctrl.empty, NewAggregate [err; Some updateErr])
    | None => (result, Plain <$> err)
    end in
  {| returned :=
       match e with
       | Returns _ _ => Return (result, err)
       | Panics msg _ _ => Panic msg
       end;
     updates := [certificateRequest];
     certificateRequest := Some certificateRequest |}.

(** A return before the deferred update is set up *)
Definition ignored (certificateRequest : option CertificateRequest)
    (err : option error) : Reconciliation :=
  {| returned := Return (ctrl.empty, Plain <$> err);
     updates := [];
     certificateRequest := certificateRequest |}.

(** [Reconcile] from the fetched request on *)
Definition reconcileFetched (certificateRequest : CertificateRequest)
  : Reconciliation :=
  (* Ignore CertificateRequest if issuerRef doesn't match our group *)
  if negb (String.eqb (cmmeta.Group (IssuerRef (Spec certificateRequest)))
             GroupVersion_Group) then
    ignored (Some certificateRequest) None
  (* Ignore CertificateRequest if status is already Ready *)
  else if cmutil.CertificateRequestHasCondition certificateRequest
            {| Type_ := CertificateRequestConditionReady;
               Status := cmmeta.ConditionTrue;
               LastTransitionTime := None; Reason := ""; Message := "" |} then
    ignored (Some certificateRequest) None
  else
    let '(certificateRequest, e) := reconcileOwned certificateRequest in
    deferredUpdate certificateRequest e.

Definition Reconcile (req : types.NamespacedName) : Reconciliation :=
  (* Get the CertificateRequest object *)
  match Get_CertificateRequest (client r) req with
  | Err err =>
      if negb (IsNotFound (client r) err) then
        ignored None (Some (errorString ("unexpected get error: " +:+ Error err)))
      else ignored None None
  | Ok certificateRequest => reconcileFetched certificateRequest
  end.

End Reconcile.
End controllers.

(** ** Notions of the specification *)

Module spec.
Import signer.

(** A character of [[-A-Za-z0-9]] *)
Definition vault_name_char (c : ascii) : Prop :=
  c = "-"%char
  \/ (nat_of_ascii "A" <= nat_of_ascii c <= nat_of_ascii "Z")%nat
  \/ (nat_of_ascii "a" <= nat_of_ascii c <= nat_of_ascii "z")%nat
  \/ (nat_of_ascii "0" <= nat_of_ascii c <= nat_of_ascii "9")%nat.

(** A vault name of 3 to 24 characters that matches [^[-A-Za-z0-9]+$] *)
Definition valid_vault_name (s : string) : Prop :=
  (3 <= String.length s <= 24)%nat
  /\ Forall vault_name_char (list_ascii_of_string s).

(** The secret payload of a config: one entry per key, the flag written by
    [fmt] (the payload carries it as "true" or "false"). *)
Definition serialize (fmt : bool -> string) (config : authConfig)
  : gmap string (list byte) :=
  <[cloudKey := bytes_of_string (cloud config)]>
  (<[tenantIDKey := bytes_of_string (tenantID config)]>
  (<[aadClientIDKey := bytes_of_string (aadClientID config)]>
  (<[aadClientSecretKey := bytes_of_string (aadClientSecret config)]>
  (<[useManagedIdentityKey := bytes_of_string (fmt (useManagedIdentity config))]>
  (<[userAssignedIdentityIDKey := bytes_of_string (userAssignedIdentityID config)]>
   ∅))))).

(** [strconv.FormatBool] *)
Definition FormatBool (b : bool) : string := if b then "true" else "false".

(** The empty and false defaults *)
Definition defaults : authConfig :=
  {| cloud := ""; tenantID := ""; aadClientID := ""; aadClientSecret := "";
     useManagedIdentity := false; userAssignedIdentityID := "" |}.

(** An endpoint without its trailing slash, if it has one *)
Fixpoint strip_trailing_slash (s : string) : string :=
  match s with
  | EmptyString => EmptyString
  | String c EmptyString => if Ascii.eqb c "/" then EmptyString else s
  | String c s' => String c (strip_trailing_slash s')
  end.

(** The selection of a credential strategy as the specification words it,
    for one config, environment and resource: (a) user-assigned managed
    identity, (b) system-assigned managed identity, (c) service principal
    scoped to the resource and the tenant, (d) no credentials. *)
Definition strategy_selected {L : Libraries} (config : authConfig)
    (env : azure.Environment) (resource : string) : Prop :=
  (useManagedIdentity config = true -> userAssignedIdentityID config <> "" ->
   exists msiEndpoint,
     GetMSIVMEndpoint = Ok msiEndpoint
     /\ getServicePrincipalToken config env resource
        = NewServicePrincipalTokenFromMSIWithUserAssignedID msiEndpoint
            (azure.ServiceManagementEndpoint env) (userAssignedIdentityID config))
  /\ (useManagedIdentity config = true -> userAssignedIdentityID config = "" ->
      exists msiEndpoint,
        GetMSIVMEndpoint = Ok msiEndpoint
        /\ getServicePrincipalToken config env resource
           = NewServicePrincipalTokenFromMSI msiEndpoint resource)
  /\ (useManagedIdentity config = false ->
      aadClientID config <> "" -> aadClientSecret config <> "" ->
      exists oauthConfig,
        NewOAuthConfig (azure.ActiveDirectoryEndpoint env) (tenantID config)
        = Ok oauthConfig
        /\ getServicePrincipalToken config env resource
           = NewServicePrincipalToken oauthConfig (aadClientID config)
               (aadClientSecret config) resource)
  /\ (useManagedIdentity config = false ->
      aadClientID config = "" \/ aadClientSecret config = "" ->
      getServicePrincipalToken config env resource
      = Err (errorString "no credentials provided for accessing keyvault")).

(** The number of conditions of type Ready in a status record *)
Definition readyCount (status : v1alpha1.IssuerStatus) : nat :=
  length (filter util.isReadyType (v1alpha1.Conditions status)).

(** One Set operation of the condition store, with the reading of the clock
    at the time it is made *)
Record SetOp : Type := {
  op_now : Time;
  op_status : string;
  op_reason : string;
  op_message : string
}.

Definition apply (status : v1alpha1.IssuerStatus) (op : SetOp) : v1alpha1.IssuerStatus :=
  util.SetReadyCondition (op_now op) status (op_status op) (op_reason op) (op_message op).

Definition applyAll (status : v1alpha1.IssuerStatus) (ops : list SetOp)
  : v1alpha1.IssuerStatus :=
  fold_left apply ops status.

(** The condition a status record holds before a Ready condition is set: the
    first one of type Ready, or the new one that Set creates *)
Definition readyBefore (status : v1alpha1.IssuerStatus) : v1alpha1.IssuerCondition :=
  default {| v1alpha1.Type_ := v1alpha1.IssuerConditionReady; v1alpha1.Status := "";
             v1alpha1.LastTransitionTime := None; v1alpha1.Reason := "";
             v1alpha1.Message := "" |}
          (util.GetReadyCondition status).

(** The condition the Ready gate looks for *)
Definition readyTrue : cmapi.CertificateRequestCondition :=
  {| cmapi.Type_ := cmapi.CertificateRequestConditionReady;
     cmapi.Status := cmmeta.ConditionTrue;
     cmapi.LastTransitionTime := None; cmapi.Reason := ""; cmapi.Message := "" |}.

(** A request the reconciler is responsible for: it names an issuer of our
    group and is not Ready=True yet *)
Definition owned {P : Package} (cr : cmapi.CertificateRequest) : Prop :=
  cmmeta.Group (cmapi.IssuerRef (cmapi.Spec cr)) = GroupVersion_Group
  /\ cmutil.CertificateRequestHasCondition cr readyTrue = false.

(** An owned request that an approval authority has marked denied *)
Definition denied {P : Package} (cr : cmapi.CertificateRequest) : Prop :=
  owned cr /\ cmutil.CertificateRequestIsDenied cr = true.

(** The error of the body of [Reconcile] when the deferred update starts *)
Definition prior_error (e : controllers.exit) : option error :=
  match e with
  | controllers.Returns _ err => err
  | controllers.Panics _ _ err => err
  end.

End spec.

(** ** Test doubles

    Stand-ins for the libraries and for the API server, in the manner of the
    fake client of controller-runtime.  The general theorems below hold for
    every implementation; these are used where a run on a concrete request is
    evaluated. *)

Module fake.
Import cmapi.

Inductive Token : Type :=
| FromMSIWithUserAssignedID (msiEndpoint resource userAssignedID : string)
| FromMSI (msiEndpoint resource : string)
| FromSecret (oauthConfig : string * string) (clientID secret resource : string).

Record KVClient : Type := {
  UserAgent : string;
  ClientAuthorizer : option Token
}.

(** Endpoints of the public cloud, as go-autorest lists them *)
Definition AzurePublicCloud : azure.Environment :=
  {| azure.ActiveDirectoryEndpoint := "https://login.microsoftonline.com/";
     azure.KeyVaultEndpoint := "https://vault.azure.net/";
     azure.KeyVaultDNSSuffix := "vault.azure.net";
     azure.ServiceManagementEndpoint := "https://management.core.windows.net/" |}.

(** An OAuth configuration is refused when the endpoint is empty, as adal
    validates it; a user agent extension is refused when it is empty; a CSR
    is refused when it has no bytes; the CA accepts every request. *)
#[local] Instance libraries : Libraries :=
  {| Quote s := dquote +:+ s +:+ dquote;
     PublicCloud := AzurePublicCloud;
     EnvironmentFromName name :=
       if String.eqb name "AZUREPUBLICCLOUD" then Ok AzurePublicCloud
       else Err (errorString
                   ("autorest/azure: There is no cloud environment matching the name "
                    +:+ dquote +:+ name +:+ dquote));
     OAuthConfig := (string * string)%type;
     NewOAuthConfig activeDirectoryEndpoint tenantID :=
       if String.eqb activeDirectoryEndpoint "" then
         Err (errorString "parameter 'activeDirectoryEndpoint' cannot be empty")
       else Ok (activeDirectoryEndpoint, tenantID);
     GetMSIVMEndpoint := Ok "http://169.254.169.254/metadata/identity/oauth2/token";
     TokenProvider := Token;
     NewServicePrincipalTokenFromMSIWithUserAssignedID msiEndpoint resource id :=
       Ok (FromMSIWithUserAssignedID msiEndpoint resource id);
     NewServicePrincipalTokenFromMSI msiEndpoint resource :=
       Ok (FromMSI msiEndpoint resource);
     NewServicePrincipalToken oauthConfig clientID secret resource :=
       Ok (FromSecret oauthConfig clientID secret resource);
     Authorizer := Token;
     NewBearerAuthorizer t := t;
     BaseClient := KVClient;
     kv_New := {| UserAgent := "Azure-SDK-For-Go"; ClientAuthorizer := None |};
     AddToUserAgent c extension :=
       if String.eqb extension "" then
         (c, Some (errorString "autorest: failed to add extension to User Agent"))
       else ({| UserAgent := UserAgent c +:+ " " +:+ extension;
                ClientAuthorizer := ClientAuthorizer c |}, None);
     set_Authorizer c a := {| UserAgent := UserAgent c; ClientAuthorizer := Some a |};
     CreateCertificate _ _ _ _ := None;
     GetCertificateIssuer _ _ _ := None;
     DecodeX509CertificateRequestBytes b :=
       match b with
       | [] => Err (errorString "error decoding certificate request PEM block")
       | _ => Ok {| RawSubject := b; DNSNames := [] |}
       end |}.

#[local] Instance package : Package :=
  {| errGetAuthSecret := errorString "failed to get Secret containing Issuer credentials";
     GroupVersion_Group := "azure-issuer.microsoft.com" |}.

Definition issuerSpec : v1alpha1.IssuerSpec :=
  {| v1alpha1.AuthSecretName := "azure-creds";
     v1alpha1.KeyvaultName := "my-vault1";
     v1alpha1.IssuerName := "my-ca" |}.

Definition readyIssuerStatus : v1alpha1.IssuerStatus :=
  util.SetReadyCondition 100 {| v1alpha1.Conditions := [] |}
    v1alpha1.ConditionTrue "Success" "Success".

Definition zeroIssuerSpec : v1alpha1.IssuerSpec :=
  {| v1alpha1.AuthSecretName := ""; v1alpha1.KeyvaultName := "";
     v1alpha1.IssuerName := "" |}.
Definition zeroIssuerStatus : v1alpha1.IssuerStatus := {| v1alpha1.Conditions := [] |}.

(** The secret of the end-to-end scenario of the specification *)
Definition servicePrincipalSecret : gmap string (list byte) :=
  <["cloud" := bytes_of_string ""]>
  (<["tenantID" := bytes_of_string "t"]>
  (<["aadClientID" := bytes_of_string "c"]>
  (<["aadClientSecret" := bytes_of_string "s"]> ∅))).

(** A cluster that holds the request [cr], a ready issuer [my-issuer] in the
    namespace of the request and the secret [secret_Data]; [updateErr] is the
    answer to every status update. *)
Definition reconciler (cr : CertificateRequest) (secret_Data : gmap string (list byte))
    (updateErr : option error) : controllers.CertificateRequestReconciler :=
  {| controllers.client :=
       {| Get_CertificateRequest _ := Ok cr;
          Get_Issuer _ := Ok (issuerSpec, readyIssuerStatus);
          Get_ClusterIssuer _ := Err (errorString "clusterissuers not found");
          Get_Secret _ := Ok secret_Data;
          IsNotFound _ := false;
          Status_Update _ := updateErr |};
     controllers.Scheme_New kind :=
       if String.eqb kind "Issuer"
       then Ok (ClientObject (v1alpha1.Issuer zeroIssuerSpec zeroIssuerStatus))
       else if String.eqb kind "ClusterIssuer"
       then Ok (ClientObject (v1alpha1.ClusterIssuer zeroIssuerSpec zeroIssuerStatus))
       else Err (errorString ("no kind " +:+ dquote +:+ kind +:+ dquote
                              +:+ " is registered for version "
                              +:+ dquote +:+ "azure-issuer.microsoft.com/v1alpha1" +:+ dquote));
     controllers.Clock_Now := 1000;
     controllers.ClusterResourceNamespace := "kube-system";
     controllers.CheckApprovedCondition := true |}.

Definition condition (type status reason : string) : CertificateRequestCondition :=
  {| Type_ := type; Status := status; LastTransitionTime := Some 10;
     Reason := reason; Message := "" |}.

Definition request (group kind : string) (conditions : list CertificateRequestCondition)
  : CertificateRequest :=
  {| Name := "cert-1"; Namespace := "default";
     Spec := {| IssuerRef := {| cmmeta.Name := "my-issuer"; cmmeta.Kind := kind;
                                cmmeta.Group := group |};
                Request := bytes_of_string "-----BEGIN CERTIFICATE REQUEST-----" |};
     Status_ := {| Conditions := conditions; Certificate := []; FailureTime := None |} |}.

(** An approved request for our issuer, with its Ready condition initialised *)
Definition approvedRequest : CertificateRequest :=
  request "azure-issuer.microsoft.com" "Issuer"
    [condition "Approved" "True" "cert-manager.io";
     condition "Ready" "False" "Pending"].

(** A request for our issuer that an approval controller has denied *)
Definition deniedRequest : CertificateRequest :=
  request "azure-issuer.microsoft.com" "Issuer"
    [condition "Denied" "True" "policy.cert-manager.io"].

(** A request that names an issuer of another group *)
Definition foreignRequest : CertificateRequest :=
  request "cert-manager.io" "Issuer" [].

Definition key : types.NamespacedName :=
  {| types.Namespace := "default"; types.Name := "cert-1" |}.

(** One invocation at time 2000 on the cluster of [reconciler] *)
Definition run (cr : CertificateRequest) (secret_Data : gmap string (list byte))
    (updateErr : option error) : controllers.Reconciliation :=
  controllers.Reconcile (reconciler cr secret_Data updateErr) 2000 key.

(** [approvedRequest] once it is issued at time 2000 *)
Definition issuedRequest : CertificateRequest :=
  request "azure-issuer.microsoft.com" "Issuer"
    [condition "Approved" "True" "cert-manager.io";
     {| Type_ := "Ready"; Status := "True"; LastTransitionTime := Some 2000;
        Reason := "Issued"; Message := "Signed" |}].

(** [approvedRequest] after a failure with [message] *)
Definition pendingRequest (message : string) : CertificateRequest :=
  request "azure-issuer.microsoft.com" "Issuer"
    [condition "Approved" "True" "cert-manager.io";
     {| Type_ := "Ready"; Status := "False"; LastTransitionTime := Some 10;
        Reason := "Pending"; Message := message |}].

(** [deniedRequest] once the denial is recorded, by the clock of
    [reconciler], at time 2000 *)
Definition failedRequest : CertificateRequest :=
  {| Name := "cert-1"; Namespace := "default";
     Spec := Spec deniedRequest;
     Status_ :=
       {| Conditions :=
            [condition "Denied" "True" "policy.cert-manager.io";
             {| Type_ := "Ready"; Status := "False"; LastTransitionTime := Some 2000;
                Reason := "Denied";
                Message := "The CertificateRequest was denied by an approval controller" |}];
          Certificate := [];
          FailureTime := Some 1000 |} |}.

(** A config that asks for the user-assigned managed identity, and an
    environment without an Active Directory endpoint *)
Definition userAssignedConfig : signer.authConfig :=
  {| signer.cloud := ""; signer.tenantID := "t"; signer.aadClientID := "";
     signer.aadClientSecret := ""; signer.useManagedIdentity := true;
     signer.userAssignedIdentityID := "identity-1" |}.

Definition noDirectoryCloud : azure.Environment :=
  {| azure.ActiveDirectoryEndpoint := "";
     azure.KeyVaultEndpoint := "https://vault.azure.net/";
     azure.KeyVaultDNSSuffix := "vault.azure.net";
     azure.ServiceManagementEndpoint := "https://management.core.windows.net/" |}.

Definition noVaultCloud : azure.Environment :=
  {| azure.ActiveDirectoryEndpoint := "https://login.microsoftonline.com/";
     azure.KeyVaultEndpoint := "";
     azure.KeyVaultDNSSuffix := "vault.azure.net";
     azure.ServiceManagementEndpoint := "https://management.core.windows.net/" |}.

(** A config with client credentials *)
Definition servicePrincipalConfig : signer.authConfig :=
  {| signer.cloud := ""; signer.tenantID := "t"; signer.aadClientID := "c";
     signer.aadClientSecret := "s"; signer.useManagedIdentity := false;
     signer.userAssignedIdentityID := "" |}.

(** A status record with one Ready condition, and two edits of it *)
Definition readyOnce : v1alpha1.IssuerStatus := readyIssuerStatus.

Definition edits : list spec.SetOp :=
  [{| spec.op_now := 200; spec.op_status := "True";
      spec.op_reason := "Checked"; spec.op_message := "still fine" |};
   {| spec.op_now := 300; spec.op_status := "False";
      spec.op_reason := "Failed"; spec.op_message := "issuer is gone" |}].

End fake.

(** ** package signer, first revision of the signer

    The sources hold an earlier text of the signer beside the current one:
    it resolves the cloud environment only, and its [Sign] is a stub.
    [parseCloudEnvironment] is the same function in both. *)

Module signer0.
Section WithLibraries.
Context {L : Libraries}.

Record caSigner : Type := {
  baseClient : BaseClient
}.

Definition cloudEnvironment (creds : gmap string (list byte)) : string :=
  string_of_bytes (signer.at_key creds "cloud").

Definition NewSigner (creds : gmap string (list byte)) (vaultName : string)
  : result caSigner :=
  let kvClient := kv_New in
  match AddToUserAgent kvClient "cert-manager-issuer" with
  | (_, Some err) =>
      Err (errorString ("failed to add user agent to keyvault client, error: "
                        +:+ Error err))
  | (kvClient, None) =>
      (* get azure cloud environment name *)
      let cloudName := cloudEnvironment creds in
      match signer.parseCloudEnvironment cloudName with
      | Err err =>
          Err (errorString ("failed to parse cloud environment " +:+ cloudName
                            +:+ ", error: " +:+ Error err))
      | Ok _ => Ok {| baseClient := kvClient |}
      end
  end.

Definition Sign (s : caSigner) (certificateSigningRequest : list byte)
  : result (list byte) :=
  Ok [].    (* return nil, nil *)

End WithLibraries.
End signer0.

(** ** package main: the namespace of the pod

    [os.Stat], [os.IsNotExist] and [ioutil.ReadFile] are the file system as
    the process sees it; [Stat] keeps the error only, as the program does. *)

Class OS : Type := {
  Stat : string -> option error;
  IsNotExist : error -> bool;
  ReadFile : string -> result (list byte)
}.

Module main.

Definition inClusterNamespacePath : string :=
  "/var/run/secrets/kubernetes.io/serviceaccount/namespace".

Definition errNotInCluster : error := errorString "not running in-cluster".

(** [os.IsNotExist(err)] for an [err] that may be nil *)
Definition os_IsNotExist {O : OS} (err : option error) : bool :=
  match err with
  | Some err => IsNotExist err
  | None => false
  end.

Definition getInClusterNamespace {O : OS} : result string :=
  (* Check whether the namespace file exists.
     If not, we are not running in cluster so can't guess the namespace. *)
  let err := Stat inClusterNamespacePath in
  if os_IsNotExist err then Err errNotInCluster
  else
    match err with
    | Some err =>
        Err (wrapError ("error checking namespace file: " +:+ Error err) err)
    | None =>
        (* Load the namespace file and return its content *)
        match ReadFile inClusterNamespacePath with
        | Err err =>
            Err (wrapError ("error reading namespace file: " +:+ Error err) err)
        | Ok namespace => Ok (string_of_bytes namespace)
        end
    end.

End main.

(** ** Further notions for the properties of the code *)

Module notions.
Import cmapi.

(** A condition of a request of another type than Ready *)
Definition isOtherType (c : CertificateRequestCondition) : Prop :=
  Type_ c <> CertificateRequestConditionReady.

#[global] Instance isOtherType_dec c : Decision (isOtherType c).
Proof. unfold isOtherType. apply _. Defined.

(** The conditions of a request that are not of type Ready, in list order *)
Definition otherConditions (cr : CertificateRequest) : list CertificateRequestCondition :=
  filter isOtherType (Conditions (Status_ cr)).

(** A request that the five gates let through to the resolution of its
    issuer: of our group, not Ready=True, not denied, approved when the
    reconciler checks approval, and with a Ready condition. *)
Definition past_gates {P : Package} (r : controllers.CertificateRequestReconciler)
    (cr : CertificateRequest) : Prop :=
  spec.owned cr
  /\ cmutil.CertificateRequestIsDenied cr = false
  /\ (controllers.CheckApprovedCondition r = true ->
      cmutil.CertificateRequestIsApproved cr = true)
  /\ is_Some (cmutil.GetCertificateRequestCondition cr CertificateRequestConditionReady).

(** The reconciler [r] over a cluster that answers the reads of issuers,
    cluster issuers and secrets by [issuers], [clusterIssuers] and
    [secrets], and is otherwise the same. *)
Definition with_reads (r : controllers.CertificateRequestReconciler)
    (issuers clusterIssuers :
       types.NamespacedName -> result (v1alpha1.IssuerSpec * v1alpha1.IssuerStatus))
    (secrets : types.NamespacedName -> result (gmap string (list byte)))
  : controllers.CertificateRequestReconciler :=
  {| controllers.client :=
       {| Get_CertificateRequest := Get_CertificateRequest (controllers.client r);
          Get_Issuer := issuers;
          Get_ClusterIssuer := clusterIssuers;
          Get_Secret := secrets;
          IsNotFound := IsNotFound (controllers.client r);
          Status_Update := Status_Update (controllers.client r) |};
     controllers.Scheme_New := controllers.Scheme_New r;
     controllers.Clock_Now := controllers.Clock_Now r;
     controllers.ClusterResourceNamespace := controllers.ClusterResourceNamespace r;
     controllers.CheckApprovedCondition := controllers.CheckApprovedCondition r |}.

(** The key under which [Reconcile] reads the issuer of a request, for a
    namespaced issuer and for a cluster issuer *)
Definition issuerKey (cr : CertificateRequest) : types.NamespacedName :=
  {| types.Namespace := Namespace cr;
     types.Name := cmmeta.Name (IssuerRef (Spec cr)) |}.

Definition clusterIssuerKey (cr : CertificateRequest) : types.NamespacedName :=
  {| types.Namespace := "";
     types.Name := cmmeta.Name (IssuerRef (Spec cr)) |}.

(** What is handed back when the one status update of an invocation is made
    after a body that returned no error *)
Definition update_result (r : controllers.CertificateRequestReconciler)
    (cr : CertificateRequest) : outcome (ctrl.Result * option ReconcileError) :=
  Return (ctrl.empty,
          match Status_Update (controllers.client r) cr with
          | None => None
          | Some updateErr => Some (Aggregate [updateErr])
          end).

(** The result the body of [Reconcile] leaves when it ends *)
Definition exit_result (e : controllers.exit) : ctrl.Result :=
  match e with
  | controllers.Returns result _ => result
  | controllers.Panics _ result _ => result
  end.

(** [cr'] is [cr] but for its Ready condition, its certificate and its
    failure time: the same object, the same spec, and the same conditions
    of the other types in the same order. *)
Definition framed (cr cr' : CertificateRequest) : Prop :=
  Name cr' = Name cr /\ Namespace cr' = Namespace cr /\ Spec cr' = Spec cr
  /\ otherConditions cr' = otherConditions cr.

(** The four ways in which the body can leave the request: as it was, with
    Ready=False set, denied with a new failure time, or issued. *)
Definition body_shape {L : Libraries} {P : Package}
    (r : controllers.CertificateRequestReconciler) (now : Time)
    (cr cr1 : CertificateRequest) (e : controllers.exit) : Prop :=
  cr1 = cr
  \/ (e = controllers.Returns ctrl.empty None
      /\ exists reason message,
          cr1 = controllers.setReadyCondition now cr cmmeta.ConditionFalse reason message)
  \/ (e = controllers.Returns ctrl.empty None
      /\ cmutil.CertificateRequestIsDenied cr = true
      /\ FailureTime (Status_ cr) = None
      /\ exists message,
          cr1 = controllers.setReadyCondition now (set_FailureTime cr (Some (controllers.Clock_Now r)))
                  cmmeta.ConditionFalse CertificateRequestReasonDenied message)
  \/ (e = controllers.Returns ctrl.empty None
      /\ cr1 = controllers.setReadyCondition now (set_Certificate cr [])
                 cmmeta.ConditionTrue CertificateRequestReasonIssued "Signed").

(** The key of the secret of an issuer with spec [issuerSpec], in namespace
    [namespace] *)
Definition secretKey (namespace : string) (issuerSpec : v1alpha1.IssuerSpec)
  : types.NamespacedName :=
  {| types.Namespace := namespace;
     types.Name := v1alpha1.AuthSecretName issuerSpec |}.

End notions.

(** ** Further test doubles *)

Module fixtures.
Import cmapi.

(** The signer that [NewSigner] builds from the secret of the end-to-end
    scenario and the vault name "my-vault1", over the libraries of [fake] *)
Definition kvClient : fake.KVClient :=
  {| fake.UserAgent := "Azure-SDK-For-Go cert-manager-issuer";
     fake.ClientAuthorizer :=
       Some (fake.FromSecret ("https://login.microsoftonline.com/", "t")
               "c" "s" "https://vault.azure.net") |}.

Definition signer : signer.caSigner (L := fake.libraries) :=
  signer.Build_caSigner (L := fake.libraries) kvClient
    "https://my-vault1.vault.azure.net/".

(** The libraries of [fake], with a table of clouds that also knows a cloud
    "AZURESTACKCLOUD" whose environment has no vault endpoint (the
    environment of that cloud is read from a file of the operator) *)
#[local] Instance stackLibraries : Libraries :=
  {| Quote := Quote (Libraries := fake.libraries);
     PublicCloud := fake.AzurePublicCloud;
     EnvironmentFromName name :=
       if String.eqb name "AZURESTACKCLOUD" then Ok fake.noVaultCloud
       else EnvironmentFromName (Libraries := fake.libraries) name;
     OAuthConfig := OAuthConfig (Libraries := fake.libraries);
     NewOAuthConfig := NewOAuthConfig (Libraries := fake.libraries);
     GetMSIVMEndpoint := GetMSIVMEndpoint (Libraries := fake.libraries);
     TokenProvider := TokenProvider (Libraries := fake.libraries);
     NewServicePrincipalTokenFromMSIWithUserAssignedID :=
       NewServicePrincipalTokenFromMSIWithUserAssignedID (Libraries := fake.libraries);
     NewServicePrincipalTokenFromMSI :=
       NewServicePrincipalTokenFromMSI (Libraries := fake.libraries);
     NewServicePrincipalToken := NewServicePrincipalToken (Libraries := fake.libraries);
     Authorizer := Authorizer (Libraries := fake.libraries);
     NewBearerAuthorizer := NewBearerAuthorizer (Libraries := fake.libraries);
     BaseClient := BaseClient (Libraries := fake.libraries);
     kv_New := kv_New (Libraries := fake.libraries);
     AddToUserAgent := AddToUserAgent (Libraries := fake.libraries);
     set_Authorizer := set_Authorizer (Libraries := fake.libraries);
     CreateCertificate := CreateCertificate (Libraries := fake.libraries);
     GetCertificateIssuer := GetCertificateIssuer (Libraries := fake.libraries);
     DecodeX509CertificateRequestBytes :=
       DecodeX509CertificateRequestBytes (Libraries := fake.libraries) |}.

(** A secret that names that cloud *)
Definition stackSecret : gmap string (list byte) :=
  <["cloud" := bytes_of_string "AZURESTACKCLOUD"]> fake.servicePrincipalSecret.

(** The secret of the end-to-end scenario as the specification lists it,
    with the key [keyvaultName] that the parser does not know and without
    the key [cloud] *)
Definition scenarioSecret : gmap string (list byte) :=
  <["keyvaultName" := bytes_of_string "my-vault1"]>
  (<["tenantID" := bytes_of_string "t"]>
  (<["aadClientID" := bytes_of_string "c"]>
  (<["aadClientSecret" := bytes_of_string "s"]> ∅))).

(** A pod in the namespace kube-system: the namespace file exists and holds
    the name followed by a newline *)
Definition newline : string := String (ascii_of_nat 10) EmptyString.

#[local] Instance inCluster : OS :=
  {| Stat _ := None;
     IsNotExist _ := false;
     ReadFile _ := Ok (bytes_of_string ("kube-system" +:+ newline)) |}.

(** An approved request of an issuer kind that the scheme does not know *)
Definition unknownKindRequest : CertificateRequest :=
  fake.request "azure-issuer.microsoft.com" "UnknownKind"
    [fake.condition "Approved" "True" "cert-manager.io";
     fake.condition "Ready" "False" "Pending"].

(** A request that no approval controller has looked at yet *)
Definition unapprovedRequest : CertificateRequest :=
  fake.request "azure-issuer.microsoft.com" "Issuer"
    [fake.condition "Ready" "False" "Pending"].

(** An approved request that the reconciler sees for the first time *)
Definition freshRequest : CertificateRequest :=
  fake.request "azure-issuer.microsoft.com" "Issuer"
    [fake.condition "Approved" "True" "cert-manager.io"].

(** The cluster of [fake.reconciler] with an issuer that is not ready *)
Definition notReadyReconciler (cr : CertificateRequest)
  : controllers.CertificateRequestReconciler :=
  notions.with_reads (fake.reconciler cr fake.servicePrincipalSecret None)
    (fun _ => Ok (fake.issuerSpec, fake.zeroIssuerStatus))
    (fun _ => Err (errorString "clusterissuers not found"))
    (fun _ => Ok fake.servicePrincipalSecret).

(** The cluster of [fake.reconciler] with secrets in the namespace of the
    request only, and issuers under the key of the request only *)
Definition narrowReconciler (cr : CertificateRequest)
  : controllers.CertificateRequestReconciler :=
  notions.with_reads (fake.reconciler cr fake.servicePrincipalSecret None)
    (fun key =>
       if String.eqb (types.Namespace key) "default"
          && String.eqb (types.Name key) "my-issuer"
       then Ok (fake.issuerSpec, fake.readyIssuerStatus)
       else Err (errorString "issuers not found"))
    (fun _ => Err (errorString "clusterissuers not found"))
    (fun key =>
       if String.eqb (types.Namespace key) "default"
          && String.eqb (types.Name key) "azure-creds"
       then Ok fake.servicePrincipalSecret
       else Err (errorString "secrets not found")).

(** A cluster from which the request is gone: every read of a request
    answers not-found *)
Definition emptyCluster : controllers.CertificateRequestReconciler :=
  {| controllers.client :=
       {| Get_CertificateRequest _ :=
            Err (errorString "certificaterequests.cert-manager.io not found");
          Get_Issuer _ := Err (errorString "issuers not found");
          Get_ClusterIssuer _ := Err (errorString "clusterissuers not found");
          Get_Secret _ := Err (errorString "secrets not found");
          IsNotFound _ := true;
          Status_Update _ := None |};
     controllers.Scheme_New _ := Err (errorString "no kind is registered");
     controllers.Clock_Now := 1000;
     controllers.ClusterResourceNamespace := "kube-system";
     controllers.CheckApprovedCondition := true |}.

(** An environment whose vault endpoint ends with two slashes *)
Definition doubleSlashCloud : azure.Environment :=
  {| azure.ActiveDirectoryEndpoint := "https://login.microsoftonline.com/";
     azure.KeyVaultEndpoint := "https://vault.azure.net//";
     azure.KeyVaultDNSSuffix := "vault.azure.net";
     azure.ServiceManagementEndpoint := "https://management.core.windows.net/" |}.

End fixtures.

(** * Properties *)

Import azure signer.

(** ** The vault URL *)

Section VaultURL.
Context {L : Libraries}.

Lemma in_class_iff c : in_class c = true <-> spec.vault_name_char c.
Proof.
  unfold in_class, spec.vault_name_char.
  rewrite !orb_true_iff, !andb_true_iff, Z.eqb_eq, !Z.leb_le.
  change (nat_of_ascii "A") with 65%nat. change (nat_of_ascii "Z") with 90%nat.
  change (nat_of_ascii "a") with 97%nat. change (nat_of_ascii "z") with 122%nat.
  change (nat_of_ascii "0") with 48%nat. change (nat_of_ascii "9") with 57%nat.
  assert (Hdash : c = "-"%char <-> nat_of_ascii c = 45%nat).
  { split; [intros ->; reflexivity|].
    intros Hc. rewrite <- (ascii_nat_embedding c), Hc. reflexivity. }
  rewrite Hdash. lia.
Qed.

Lemma isValid_iff s :
  isValid s = true <->
  s <> "" /\ Forall spec.vault_name_char (list_ascii_of_string s).
Proof.
  unfold isValid. rewrite andb_true_iff, negb_true_iff, String.eqb_neq.
  rewrite forallb_forall, List.Forall_forall.
  split; intros [Hne Hall]; (split; [exact Hne|]);
    intros c Hc; apply in_class_iff, Hall, Hc.
Qed.

Lemma valid_vault_name_checks s :
  spec.valid_vault_name s <->
  ((len s <? 3) || (len s >? 24) = false /\ isValid s = true).
Proof.
  unfold spec.valid_vault_name, len.
  rewrite orb_false_iff, Z.ltb_ge, Z.gtb_ltb, Z.ltb_ge, isValid_iff.
  split.
  - intros [Hlen Hall]. repeat split; try lia; [|exact Hall].
    intros ->. simpl in Hlen. lia.
  - intros [Hlen [_ Hall]]. split; [lia|exact Hall].
Qed.

(** C7. The vault name must have 3 to 24 characters of [[-A-Za-z0-9]]: any
    other name is refused with a validation error that cites the name (as
    [%q] renders it), and a valid name gives exactly the URL
    [https://{vaultName}.{KeyVaultDNSSuffix}/].  The names "ab",
    "toolongvaultname-------123456" and "bad_name!" are refused and
    "my-vault1" is accepted. *)
Theorem getVaultURL_validates (env : Environment) (vaultName : string) :
  (~ spec.valid_vault_name vaultName ->
   exists rule,
     getVaultURL env vaultName =
     Err (errorString ("invalid vault name: " +:+ Quote vaultName +:+ rule)))
  /\ (spec.valid_vault_name vaultName ->
      getVaultURL env vaultName =
      Ok ("https://" +:+ vaultName +:+ "." +:+ KeyVaultDNSSuffix env +:+ "/"))
  /\ is_Err (getVaultURL env "ab") = true
  /\ is_Err (getVaultURL env "toolongvaultname-------123456") = true
  /\ is_Err (getVaultURL env "bad_name!") = true
  /\ getVaultURL env "my-vault1"
     = Ok ("https://my-vault1." +:+ KeyVaultDNSSuffix env +:+ "/").
Proof.
  repeat split; try reflexivity.
  - intros Hbad. unfold getVaultURL.
    destruct ((len vaultName <? 3) || (len vaultName >? 24)) eqn:Hlen; [eauto|].
    destruct (isValid vaultName) eqn:Hre; simpl; [|eauto].
    exfalso. apply Hbad, valid_vault_name_checks. auto.
  - intros Hok. apply valid_vault_name_checks in Hok as [Hlen Hre].
    unfold getVaultURL. rewrite Hlen, Hre. reflexivity.
Qed.

End VaultURL.

(** ** The token source *)

Section TokenSource.
Context {L : Libraries}.

Lemma len_pos_iff s : (len s >? 0) = true <-> s <> "".
Proof.
  unfold len. rewrite Z.gtb_ltb, Z.ltb_lt.
  destruct s; simpl; split; try congruence; lia.
Qed.

Lemma len_pos_false_iff s : (len s >? 0) = false <-> s = "".
Proof.
  unfold len. rewrite Z.gtb_ltb, Z.ltb_ge.
  destruct s; simpl; split; try congruence; lia.
Qed.

(** The last byte of a non-empty string is within bounds. *)
Lemma get_last c s : exists last, String.get (String.length s) (String c s) = Some last.
Proof.
  revert c. induction s as [|c' s IH]; intros c; simpl; [eauto|].
  apply (IH c').
Qed.

Lemma index_last s :
  s <> "" ->
  index s (len s - 1) = String.get (String.length s - 1) s
  /\ exists last, index s (len s - 1) = Some last.
Proof.
  intros Hne. destruct s as [|c s]; [congruence|].
  unfold index, len. cbn [String.length].
  replace (Z.of_nat (S (String.length s)) - 1) with (Z.of_nat (String.length s)) by lia.
  rewrite Nat2Z.id.
  replace (S (String.length s) - 1)%nat with (String.length s) by lia.
  assert (Hin : (0 <=? Z.of_nat (String.length s))
                && (Z.of_nat (String.length s) <? Z.of_nat (S (String.length s))) = true).
  { apply andb_true_iff. rewrite Z.leb_le, Z.ltb_lt. lia. }
  rewrite Hin. split; [reflexivity|apply get_last].
Qed.

(** The strip of [getKeyvaultToken], on byte positions *)
Lemma strip_last c s :
  match String.get (String.length s) (String c s) with
  | Some last =>
      if Ascii.eqb "/" last then String.substring 0 (String.length s) (String c s)
      else String c s
  | None => String c s
  end = spec.strip_trailing_slash (String c s).
Proof.
  revert c. induction s as [|c' s IH]; intros c.
  - simpl. rewrite Ascii.eqb_sym. destruct (Ascii.eqb c "/"); reflexivity.
  - specialize (IH c').
    change (String.get (String.length (String c' s)) (String c (String c' s)))
      with (String.get (String.length s) (String c' s)).
    change (spec.strip_trailing_slash (String c (String c' s)))
      with (String c (spec.strip_trailing_slash (String c' s))).
    change (String.substring 0 (String.length (String c' s)) (String c (String c' s)))
      with (String c (String.substring 0 (String.length s) (String c' s))).
    destruct (String.get (String.length s) (String c' s)) as [last|];
      [destruct (Ascii.eqb "/" last)|]; rewrite <- IH; reflexivity.
Qed.

Lemma getKeyvaultToken_resource config env :
  KeyVaultEndpoint env <> "" ->
  getKeyvaultToken config env
  = Return match getServicePrincipalToken config env
                   (spec.strip_trailing_slash (KeyVaultEndpoint env)) with
           | Err err => Err err
           | Ok servicePrincipalToken => Ok (NewBearerAuthorizer servicePrincipalToken)
           end.
Proof.
  intros Hne. unfold getKeyvaultToken.
  destruct (index_last _ Hne) as [Hidx _]. rewrite Hidx.
  destruct (KeyVaultEndpoint env) as [|c s] eqn:Hkv; [congruence|].
  pose proof (strip_last c s) as Hstrip.
  unfold slice_to, len. cbn [String.length].
  replace (Z.to_nat (Z.of_nat (S (String.length s)) - 1)) with (String.length s) by lia.
  replace (S (String.length s) - 1)%nat with (String.length s) by lia.
  destruct (get_last c s) as [last Hlast]. rewrite Hlast in Hstrip |- *.
  rewrite <- Hstrip.
  destruct (Ascii.eqb "/" last);
    destruct (getServicePrincipalToken _ _ _); reflexivity.
Qed.

(** C10. [getKeyvaultToken] reads the last byte of [env.KeyVaultEndpoint]
    without checking that there is one: for an environment with an empty
    endpoint the index is out of range and the call panics, and
    [NewSigner] panics with it; for a non-empty endpoint the index is in
    range and the call returns. *)
Theorem getKeyvaultToken_bounds (config : authConfig) (env : Environment) :
  (KeyVaultEndpoint env = "" ->
   index (KeyVaultEndpoint env) (len (KeyVaultEndpoint env) - 1) = None
   /\ getKeyvaultToken config env = Panic index_out_of_range
   /\ forall creds vaultName kvClient vaultURL,
        AddToUserAgent kv_New "cert-manager-issuer" = (kvClient, None) ->
        getConfigFromSecretData creds = Ok config ->
        parseCloudEnvironment (cloud config) = Ok env ->
        getVaultURL env vaultName = Ok vaultURL ->
        NewSigner creds vaultName = Panic index_out_of_range)
  /\ (KeyVaultEndpoint env <> "" ->
      (exists last,
         index (KeyVaultEndpoint env) (len (KeyVaultEndpoint env) - 1) = Some last)
      /\ exists r, getKeyvaultToken config env = Return r).
Proof.
  split.
  - intros Hempty. unfold getKeyvaultToken. rewrite Hempty.
    repeat split; try reflexivity.
    intros creds vaultName kvClient vaultURL Hua Hcfg Henv Hurl.
    unfold NewSigner. rewrite Hua, Hcfg, Henv, Hurl.
    unfold getKeyvaultToken. rewrite Hempty. reflexivity.
  - intros Hne. split; [apply index_last, Hne|].
    rewrite (getKeyvaultToken_resource _ _ Hne). eauto.
Qed.

(** C6, as amended.  The OAuth configuration of the tenant is built before
    any strategy is looked at, and the managed-identity endpoint before the
    two managed-identity strategies: when either fails the builder fails
    with that error, whatever the credentials.  When
    [NewOAuthConfig env.ActiveDirectoryEndpoint config.tenantID] succeeds
    and, for a config with [useManagedIdentity], the endpoint is obtained,
    exactly one strategy is selected, in the order of the specification, and
    [getKeyvaultToken] passes as resource the vault endpoint without its
    trailing slash. *)
Theorem getServicePrincipalToken_strategy (config : authConfig) (env : Environment)
    (resource : string) :
  (forall err,
     NewOAuthConfig (ActiveDirectoryEndpoint env) (tenantID config) = Err err ->
     getServicePrincipalToken config env resource
     = Err (errorString ("failed to create OAuth config, error: " +:+ Error err)))
  /\ (forall oauthConfig err,
       NewOAuthConfig (ActiveDirectoryEndpoint env) (tenantID config) = Ok oauthConfig ->
       useManagedIdentity config = true -> GetMSIVMEndpoint = Err err ->
       getServicePrincipalToken config env resource
       = Err (errorString ("failed to get managed service identity endpoint, error: "
                           +:+ Error err)))
  /\ (forall oauthConfig,
       NewOAuthConfig (ActiveDirectoryEndpoint env) (tenantID config) = Ok oauthConfig ->
       (useManagedIdentity config = true -> exists msiEndpoint, GetMSIVMEndpoint = Ok msiEndpoint) ->
       spec.strategy_selected config env resource)
  /\ (KeyVaultEndpoint env <> "" ->
      getKeyvaultToken config env
      = Return match getServicePrincipalToken config env
                       (spec.strip_trailing_slash (KeyVaultEndpoint env)) with
               | Err err => Err err
               | Ok servicePrincipalToken => Ok (NewBearerAuthorizer servicePrincipalToken)
               end).
Proof.
  split; [|split; [|split]].
  - intros err Hoauth. unfold getServicePrincipalToken. rewrite Hoauth. reflexivity.
  - intros oauthConfig err Hoauth Hmi Hmsi. unfold getServicePrincipalToken.
    rewrite Hoauth, Hmi, Hmsi. reflexivity.
  - intros oauthConfig Hoauth Hmsi. unfold spec.strategy_selected, getServicePrincipalToken.
    rewrite Hoauth. repeat split.
    + intros Hmi Hid. destruct (Hmsi Hmi) as [msiEndpoint Hep].
      exists msiEndpoint. split; [exact Hep|].
      rewrite Hmi, Hep. apply len_pos_iff in Hid. rewrite Hid. reflexivity.
    + intros Hmi Hid. destruct (Hmsi Hmi) as [msiEndpoint Hep].
      exists msiEndpoint. split; [exact Hep|].
      rewrite Hmi, Hep. apply len_pos_false_iff in Hid. rewrite Hid. reflexivity.
    + intros Hmi Hid Hsecret. exists oauthConfig. split; [reflexivity|].
      rewrite Hmi. apply len_pos_iff in Hid, Hsecret. rewrite Hid, Hsecret. reflexivity.
    + intros Hmi Hnone. rewrite Hmi.
      destruct Hnone as [Hnone|Hnone]; apply len_pos_false_iff in Hnone; rewrite Hnone;
        [reflexivity|rewrite andb_false_r; reflexivity].
  - apply getKeyvaultToken_resource.
Qed.

End TokenSource.

(** ** The auth config *)

Section AuthConfig.
Context {L : Libraries}.

Lemma string_of_bytes_of_string s : string_of_bytes (bytes_of_string s) = s.
Proof. apply string_of_list_byte_of_string. Qed.

Lemma ParseBool_FormatBool b : ParseBool (spec.FormatBool b) = Ok b.
Proof. destruct b; reflexivity. Qed.

(** The flag of a payload, as [getConfigFromSecretData] reads it *)
Lemma getConfigFromSecretData_flag data :
  getConfigFromSecretData data =
  let config b :=
    {| cloud := string_of_bytes (at_key data cloudKey);
       tenantID := string_of_bytes (at_key data tenantIDKey);
       aadClientID := string_of_bytes (at_key data aadClientIDKey);
       aadClientSecret := string_of_bytes (at_key data aadClientSecretKey);
       useManagedIdentity := b;
       userAssignedIdentityID := string_of_bytes (at_key data userAssignedIdentityIDKey) |} in
  match at_key data useManagedIdentityKey with
  | [] => Ok (config false)
  | v => match ParseBool (string_of_bytes v) with
         | Ok b => Ok (config b)
         | Err err => Err (errorString ("failed to parse auth config: " +:+ Error err))
         end
  end.
Proof.
  unfold getConfigFromSecretData.
  destruct (at_key data useManagedIdentityKey) as [|b v]; reflexivity.
Qed.

Lemma serialize_roundtrip fmt config :
  (forall b, ParseBool (fmt b) = Ok b) ->
  getConfigFromSecretData (spec.serialize fmt config) = Ok config.
Proof.
  intros Hfmt. unfold getConfigFromSecretData, spec.serialize, at_key.
  unfold cloudKey, tenantIDKey, aadClientIDKey, aadClientSecretKey,
    useManagedIdentityKey, userAssignedIdentityIDKey.
  simplify_map_eq. rewrite !string_of_bytes_of_string, Hfmt.
  destruct (String.eqb_spec (fmt (useManagedIdentity config)) "") as [Hempty|_].
  - specialize (Hfmt (useManagedIdentity config)). rewrite Hempty in Hfmt. discriminate.
  - destruct config; reflexivity.
Qed.

(** C9, as amended.  Parsing the payload of a config gives the config back,
    for every way of writing the flag that [strconv.ParseBool] reads back
    (such as "true" and "false"); a missing key gives the empty string, or
    false for the flag; a flag that is present, not empty and not parseable
    as a boolean is a configuration error; a flag that is present and empty
    is read as false, like a missing one. *)
Theorem getConfigFromSecretData_roundtrip :
  (forall fmt config,
     (forall b, ParseBool (fmt b) = Ok b) ->
     getConfigFromSecretData (spec.serialize fmt config) = Ok config)
  /\ getConfigFromSecretData ∅ = Ok spec.defaults
  /\ (forall data config,
        getConfigFromSecretData data = Ok config ->
        (data !! cloudKey = None -> cloud config = "")
        /\ (data !! tenantIDKey = None -> tenantID config = "")
        /\ (data !! aadClientIDKey = None -> aadClientID config = "")
        /\ (data !! aadClientSecretKey = None -> aadClientSecret config = "")
        /\ (data !! userAssignedIdentityIDKey = None -> userAssignedIdentityID config = "")
        /\ (data !! useManagedIdentityKey = None -> useManagedIdentity config = false))
  /\ (forall data v err,
        data !! useManagedIdentityKey = Some v -> v <> [] ->
        ParseBool (string_of_bytes v) = Err err ->
        getConfigFromSecretData data
        = Err (errorString ("failed to parse auth config: " +:+ Error err)))
  /\ (forall data,
        data !! useManagedIdentityKey = None \/ data !! useManagedIdentityKey = Some [] ->
        exists config,
          getConfigFromSecretData data = Ok config
          /\ useManagedIdentity config = false).
Proof.
  split; [exact serialize_roundtrip|].
  split; [reflexivity|].
  split; [|split].
  - intros data config. rewrite getConfigFromSecretData_flag. cbv zeta.
    intros Hcfg.
    assert (Hfields :
      cloud config = string_of_bytes (at_key data cloudKey)
      /\ tenantID config = string_of_bytes (at_key data tenantIDKey)
      /\ aadClientID config = string_of_bytes (at_key data aadClientIDKey)
      /\ aadClientSecret config = string_of_bytes (at_key data aadClientSecretKey)
      /\ userAssignedIdentityID config
         = string_of_bytes (at_key data userAssignedIdentityIDKey)
      /\ (at_key data useManagedIdentityKey = [] -> useManagedIdentity config = false)).
    { destruct (at_key data useManagedIdentityKey) as [|b v].
      - inversion Hcfg; subst; simpl. repeat split; reflexivity.
      - destruct (ParseBool _); inversion Hcfg; subst; simpl.
        repeat split; try reflexivity. discriminate. }
    destruct Hfields as (-> & -> & -> & -> & -> & Hflag).
    unfold at_key in *.
    repeat split; intros Hmiss; rewrite Hmiss in *; auto.
  - intros data v err Hv Hne Herr. rewrite getConfigFromSecretData_flag. cbv zeta.
    unfold at_key. rewrite Hv. simpl.
    destruct v as [|b v]; [congruence|]. rewrite Herr. reflexivity.
  - intros data Hflag. rewrite getConfigFromSecretData_flag. cbv zeta.
    assert (Hnil : at_key data useManagedIdentityKey = []).
    { unfold at_key. destruct Hflag as [-> | ->]; reflexivity. }
    rewrite Hnil. eauto.
Qed.

End AuthConfig.

(** ** Lists of conditions *)

Section FirstMatch.
Context {A : Type} (P : A -> Prop) `{!forall x, Decision (P x)}.

(** Appending a match to a list without one makes it the first match. *)
Lemma list_find_snoc (l : list A) x :
  list_find P l = None -> P x ->
  list_find P (l ++ [x])%list = Some (length l, x).
Proof.
  intros Hnone Hx. apply list_find_Some. repeat split.
  - rewrite lookup_app_r by lia. rewrite Nat.sub_diag. reflexivity.
  - exact Hx.
  - intros j y Hj Hlt. rewrite lookup_app_l in Hj by lia.
    apply list_find_None in Hnone.
    rewrite List.Forall_forall in Hnone. apply Hnone.
    apply list_elem_of_In, list_elem_of_lookup. eauto.
Qed.

(** Overwriting the first match by a match keeps it the first match. *)
Lemma list_find_insert (l : list A) i old new :
  list_find P l = Some (i, old) -> P new ->
  list_find P (<[i := new]> l) = Some (i, new).
Proof.
  intros Hfind Hnew. apply list_find_Some in Hfind as (Hi & Hold & Hbefore).
  apply list_find_Some. repeat split.
  - apply list_lookup_insert_eq. eapply lookup_lt_Some, Hi.
  - exact Hnew.
  - intros j y Hj Hlt. rewrite list_lookup_insert_ne in Hj by lia. eauto.
Qed.

End FirstMatch.

(** A test that the old and the new element both fail is not affected by
    an overwrite. *)
Lemma existsb_insert {A} (Q : A -> bool) (l : list A) i old new :
  l !! i = Some old -> Q old = false -> Q new = false ->
  existsb Q (<[i := new]> l) = existsb Q l.
Proof.
  revert i. induction l as [|x l IH]; intros i Hi Hold Hnew; [discriminate|].
  destruct i as [|i]; simpl in *.
  - inversion Hi; subst x. rewrite Hold, Hnew. reflexivity.
  - rewrite (IH i); auto.
Qed.

Lemma existsb_lookup_false {A} (Q : A -> bool) (l : list A) i x :
  existsb Q l = false -> l !! i = Some x -> Q x = false.
Proof.
  revert i. induction l as [|y l IH]; intros i Hall Hi; [discriminate|].
  simpl in Hall. apply orb_false_iff in Hall as [Hy Hl].
  destruct i as [|i]; simpl in Hi; [congruence|eauto].
Qed.

(** ** The condition store of the issuer status *)

Section ConditionStore.
Import v1alpha1 util.

Lemma filter_insert_ready (conds : list IssuerCondition) i old new :
  conds !! i = Some old -> isReadyType old -> isReadyType new ->
  length (filter isReadyType (<[i := new]> conds)) = length (filter isReadyType conds).
Proof.
  revert i. induction conds as [|c conds IH]; intros i Hi Hold Hnew; [discriminate|].
  destruct i as [|i]; simpl in *.
  - inversion Hi; subst c. rewrite !filter_cons.
    destruct (decide (isReadyType new)), (decide (isReadyType old)); tauto.
  - rewrite !filter_cons. destruct (decide (isReadyType c)); simpl;
      rewrite (IH i); auto.
Qed.

Lemma filter_none_ready (conds : list IssuerCondition) :
  list_find isReadyType conds = None -> filter isReadyType conds = [].
Proof.
  rewrite list_find_None. induction 1 as [|c conds Hc _ IH]; [reflexivity|].
  rewrite filter_cons. destruct (decide (isReadyType c)); tauto.
Qed.

(** What [SetReadyCondition] leaves in the list: the conditions as they
    were, with the first Ready one (or a new last one) replaced by the
    updated condition. *)
Lemma SetReadyCondition_unfold now status conditionStatus reason message :
  let old := spec.readyBefore status in
  let ready :=
    {| Type_ := IssuerConditionReady; Status := conditionStatus;
       LastTransitionTime :=
         if String.eqb (Status old) conditionStatus then LastTransitionTime old
         else Some now;
       Reason := reason; Message := message |} in
  Conditions (SetReadyCondition now status conditionStatus reason message)
  = match list_find isReadyType (Conditions status) with
    | Some (i, _) => <[i := ready]> (Conditions status)
    | None => (Conditions status ++ [ready])%list
    end.
Proof.
  unfold SetReadyCondition, spec.readyBefore, GetReadyCondition.
  destruct (list_find isReadyType (Conditions status)) as [[i old]|] eqn:Hfind; simpl.
  - pose proof Hfind as Hfound. apply list_find_Some in Hfound as (_ & Hold & _).
    unfold isReadyType in Hold. rewrite Hold.
    destruct (String.eqb_spec (Status old) conditionStatus) as [->|_]; simpl;
      rewrite Hfind; reflexivity.
  - set (ready0 := {| Type_ := IssuerConditionReady; Status := "";
                      LastTransitionTime := None; Reason := ""; Message := "" |}).
    assert (Hsnoc := list_find_snoc isReadyType _ ready0 Hfind eq_refl).
    destruct conditionStatus; simpl; rewrite Hsnoc; simpl;
      rewrite insert_app_r_alt by lia; rewrite Nat.sub_diag; reflexivity.
Qed.

Lemma SetReadyCondition_count now status conditionStatus reason message :
  spec.readyCount (SetReadyCondition now status conditionStatus reason message)
  = Nat.max 1 (spec.readyCount status).
Proof.
  unfold spec.readyCount. rewrite SetReadyCondition_unfold. cbv zeta.
  destruct (list_find isReadyType (Conditions status)) as [[i old]|] eqn:Hfind.
  - apply list_find_Some in Hfind as (Hi & Hold & _).
    rewrite (filter_insert_ready _ _ old) by (auto; reflexivity).
    assert (Hin : old ∈ filter isReadyType (Conditions status)).
    { apply list_elem_of_filter. split; [exact Hold|].
      apply list_elem_of_lookup. eauto. }
    destruct (filter isReadyType (Conditions status)); [inversion Hin|simpl; lia].
  - rewrite filter_app, (filter_none_ready _ Hfind). reflexivity.
Qed.

(** C5. Over every sequence of Set operations a status record with at most
    one condition of type Ready keeps at most one, and after a Set the Ready
    condition carries the new status, reason and message, with
    [lastTransitionTime] stamped exactly when the status differs from the one
    before: an edit of the reason or message alone leaves it as it was. *)
Theorem SetReadyCondition_invariant :
  (forall status ops,
     (spec.readyCount status <= 1)%nat ->
     (spec.readyCount (spec.applyAll status ops) <= 1)%nat)
  /\ (forall now status conditionStatus reason message,
        exists ready,
          GetReadyCondition (SetReadyCondition now status conditionStatus reason message)
          = Some ready
          /\ Status ready = conditionStatus
          /\ Reason ready = reason
          /\ Message ready = message
          /\ (Status (spec.readyBefore status) = conditionStatus ->
              LastTransitionTime ready = LastTransitionTime (spec.readyBefore status))
          /\ (Status (spec.readyBefore status) <> conditionStatus ->
              LastTransitionTime ready = Some now)).
Proof.
  split.
  - intros status ops. revert status.
    induction ops as [|op ops IH]; intros status Hle; [exact Hle|].
    apply IH. unfold spec.apply. rewrite SetReadyCondition_count. lia.
  - intros now status conditionStatus reason message.
    exists {| Type_ := IssuerConditionReady; Status := conditionStatus;
              LastTransitionTime :=
                if String.eqb (Status (spec.readyBefore status)) conditionStatus
                then LastTransitionTime (spec.readyBefore status)
                else Some now;
              Reason := reason; Message := message |}.
    split.
    + unfold GetReadyCondition. rewrite SetReadyCondition_unfold. cbv zeta.
      destruct (list_find isReadyType (Conditions status)) as [[i old]|] eqn:Hfind.
      * erewrite list_find_insert by (eauto; reflexivity). reflexivity.
      * erewrite list_find_snoc by (eauto; reflexivity). reflexivity.
    + simpl. repeat split.
      * intros Hsame. apply String.eqb_eq in Hsame. rewrite Hsame. reflexivity.
      * intros Hdiff. apply String.eqb_neq in Hdiff. rewrite Hdiff. reflexivity.
Qed.

End ConditionStore.

(** ** The reconciler *)

Section Reconciliation.
Context {L : Libraries} {P : Package}.
Import cmapi controllers.

(** *** The Ready condition of a request *)

Lemma setReadyCondition_frame now cr status reason message :
  let cr' := setReadyCondition now cr status reason message in
  Name cr' = Name cr /\ Namespace cr' = Namespace cr /\ Spec cr' = Spec cr
  /\ Certificate (Status_ cr') = Certificate (Status_ cr)
  /\ FailureTime (Status_ cr') = FailureTime (Status_ cr).
Proof.
  unfold setReadyCondition, cmutil.SetCertificateRequestCondition.
  destruct (list_find _ _) as [[i c]|]; simpl; auto.
Qed.

Lemma setReadyCondition_get now cr status reason message :
  exists ready,
    cmutil.GetCertificateRequestCondition
      (setReadyCondition now cr status reason message)
      CertificateRequestConditionReady = Some ready
    /\ Status ready = status /\ Reason ready = reason /\ Message ready = message.
Proof.
  unfold setReadyCondition, cmutil.SetCertificateRequestCondition,
    cmutil.GetCertificateRequestCondition.
  destruct (list_find _ (Conditions (Status_ cr))) as [[i c]|] eqn:Hfind; simpl.
  - erewrite list_find_insert by (eauto; reflexivity). simpl. eauto.
  - erewrite list_find_snoc by (eauto; reflexivity). simpl. eauto.
Qed.

(** A test that no condition of type Ready passes sees no difference. *)
Lemma setReadyCondition_others (Q : CertificateRequestCondition -> bool) now cr
    status reason message :
  (forall c, Type_ c = CertificateRequestConditionReady -> Q c = false) ->
  existsb Q (Conditions (Status_ (setReadyCondition now cr status reason message)))
  = existsb Q (Conditions (Status_ cr)).
Proof.
  intros HQ. unfold setReadyCondition, cmutil.SetCertificateRequestCondition.
  destruct (list_find _ (Conditions (Status_ cr))) as [[i c]|] eqn:Hfind; simpl.
  - apply list_find_Some in Hfind as (Hi & Hc & _).
    apply (existsb_insert Q _ _ c); auto.
  - rewrite existsb_app. simpl. rewrite HQ by reflexivity.
    rewrite !orb_false_r. reflexivity.
Qed.

Lemma setReadyCondition_denied now cr status reason message :
  cmutil.CertificateRequestIsDenied (setReadyCondition now cr status reason message)
  = cmutil.CertificateRequestIsDenied cr.
Proof.
  apply setReadyCondition_others. intros c ->. reflexivity.
Qed.

(** Setting a status other than True on a request that is not Ready=True
    leaves it not Ready=True. *)
Lemma setReadyCondition_not_ready now cr status reason message :
  String.eqb cmmeta.ConditionTrue status = false ->
  cmutil.CertificateRequestHasCondition cr spec.readyTrue = false ->
  cmutil.CertificateRequestHasCondition
    (setReadyCondition now cr status reason message) spec.readyTrue = false.
Proof.
  intros Hstatus. unfold cmutil.CertificateRequestHasCondition.
  set (Q := fun cond : CertificateRequestCondition => _).
  intros Hnot.
  assert (Hnew : forall t, Q {| Type_ := CertificateRequestConditionReady;
                                Status := status; LastTransitionTime := t;
                                Reason := reason; Message := message |} = false).
  { intros t. unfold Q. cbn -[String.eqb cmmeta.ConditionTrue].
    rewrite Hstatus, andb_false_r. reflexivity. }
  unfold setReadyCondition, cmutil.SetCertificateRequestCondition.
  destruct (list_find _ (Conditions (Status_ cr))) as [[i c]|] eqn:Hfind; simpl.
  - apply list_find_Some in Hfind as (Hi & _ & _).
    rewrite (existsb_insert Q _ _ c); auto.
    eapply existsb_lookup_false; eauto.
  - rewrite existsb_app, Hnot. simpl. rewrite Hnew. reflexivity.
Qed.

Lemma setReadyCondition_owned now cr status reason message :
  String.eqb cmmeta.ConditionTrue status = false ->
  spec.owned cr -> spec.owned (setReadyCondition now cr status reason message).
Proof.
  intros Hstatus [Hgroup Hnot]. split.
  - destruct (setReadyCondition_frame now cr status reason message)
      as (_ & _ & -> & _). exact Hgroup.
  - apply setReadyCondition_not_ready; assumption.
Qed.

(** *** The gates *)

Lemma reconcileFetched_owned r now cr :
  spec.owned cr ->
  reconcileFetched r now cr
  = deferredUpdate r now (fst (reconcileOwned r now cr)) (snd (reconcileOwned r now cr)).
Proof.
  intros [Hgroup Hnot]. unfold reconcileFetched.
  rewrite Hgroup, String.eqb_refl. simpl.
  fold spec.readyTrue. rewrite Hnot.
  destruct (reconcileOwned r now cr); reflexivity.
Qed.

Lemma reconcileFetched_not_owned r now cr :
  ~ spec.owned cr -> reconcileFetched r now cr = ignored (Some cr) None.
Proof.
  intros Hnot. unfold reconcileFetched.
  destruct (String.eqb_spec (cmmeta.Group (IssuerRef (Spec cr))) GroupVersion_Group)
    as [Hgroup|_]; [|reflexivity].
  simpl. fold spec.readyTrue.
  destruct (cmutil.CertificateRequestHasCondition cr spec.readyTrue) eqn:Hready;
    [reflexivity|].
  exfalso. apply Hnot. split; assumption.
Qed.

(** C8. A request whose [issuerRef.group] is not the group of the issuer
    types is ignored: [Reconcile] returns the empty result and no error,
    hands nothing to the status update and leaves the request, its
    conditions and its other status fields as they were fetched. *)
Theorem foreign_group_is_ignored (r : CertificateRequestReconciler) (now : Time)
    (cr : CertificateRequest) :
  cmmeta.Group (IssuerRef (Spec cr)) <> GroupVersion_Group ->
  reconcileFetched r now cr
  = {| returned := Return (ctrl.empty, None); updates := [];
       certificateRequest := Some cr |}
  /\ forall req,
      Get_CertificateRequest (client r) req = Ok cr ->
      Reconcile r now req
      = {| returned := Return (ctrl.empty, None); updates := [];
           certificateRequest := Some cr |}.
Proof.
  intros Hgroup.
  assert (Hfetched : reconcileFetched r now cr = ignored (Some cr) None).
  { apply reconcileFetched_not_owned. intros [Heq _]. contradiction. }
  split; [exact Hfetched|].
  intros req Hget. unfold Reconcile. rewrite Hget. exact Hfetched.
Qed.

(** C2, as amended.  The two gates that come before the deferred update is
    set up (a foreign group, a request that is already Ready=True) return
    success without any attempt to persist.  Every other exit of the body,
    by [return] or by panic, is followed by exactly one status update, of
    the request as the body and the deferred function left it; when the
    body returned and that update fails, the result is empty and the error
    is the aggregate of the error of the body, if any, and the update
    error. *)
Theorem status_update_attempts (r : CertificateRequestReconciler) (now : Time)
    (cr : CertificateRequest) :
  (~ spec.owned cr ->
   updates (reconcileFetched r now cr) = []
   /\ returned (reconcileFetched r now cr) = Return (ctrl.empty, None))
  /\ (spec.owned cr ->
      exists cr',
        updates (reconcileFetched r now cr) = [cr']
        /\ certificateRequest (reconcileFetched r now cr) = Some cr'
        /\ forall updateErr,
            Status_Update (client r) cr' = Some updateErr ->
            match snd (reconcileOwned r now cr) with
            | Returns _ err =>
                returned (reconcileFetched r now cr)
                = Return (ctrl.empty,
                          Some (Aggregate match err with
                                          | Some err => [err; updateErr]
                                          | None => [updateErr]
                                          end))
            | Panics msg _ _ => returned (reconcileFetched r now cr) = Panic msg
            end).
Proof.
  split.
  - intros Hnot. rewrite (reconcileFetched_not_owned _ _ _ Hnot). split; reflexivity.
  - intros Howned. rewrite (reconcileFetched_owned _ _ _ Howned).
    destruct (reconcileOwned r now cr) as [cr1 e]. unfold deferredUpdate. simpl.
    exists match spec.prior_error e with
           | Some err =>
               setReadyCondition now cr1 cmmeta.ConditionFalse
                 CertificateRequestReasonPending (Error err)
           | None => cr1
           end.
    split; [|split].
    + destruct e as [result err|msg result err];
        destruct (Status_Update _ _); reflexivity.
    + destruct e as [result err|msg result err];
        destruct (Status_Update _ _); reflexivity.
    + intros updateErr.
      destruct e as [result err|msg result err]; simpl; intros Hupd; rewrite Hupd;
        [destruct err|]; reflexivity.
Qed.

(** *** The denied gate *)

Lemma denied_step r now cr :
  spec.denied cr ->
  let cr' :=
    setReadyCondition now
      match FailureTime (Status_ cr) with
      | None => set_FailureTime cr (Some (Clock_Now r))
      | Some _ => cr
      end
      cmmeta.ConditionFalse CertificateRequestReasonDenied
      "The CertificateRequest was denied by an approval controller" in
  reconcileFetched r now cr
  = {| returned :=
         Return (ctrl.empty,
                 match Status_Update (client r) cr' with
                 | None => None
                 | Some updateErr => Some (Aggregate [updateErr])
                 end);
       updates := [cr'];
       certificateRequest := Some cr' |}
  /\ FailureTime (Status_ cr')
     = Some (default (Clock_Now r) (FailureTime (Status_ cr)))
  /\ spec.denied cr'.
Proof.
  intros [Howned Hdenied]. cbv zeta. split; [|split].
  - rewrite (reconcileFetched_owned _ _ _ Howned).
    unfold reconcileOwned. rewrite Hdenied. unfold deferredUpdate. simpl.
    destruct (Status_Update _ _); reflexivity.
  - destruct (setReadyCondition_frame now
                match FailureTime (Status_ cr) with
                | None => set_FailureTime cr (Some (Clock_Now r))
                | Some _ => cr
                end
                cmmeta.ConditionFalse CertificateRequestReasonDenied
                "The CertificateRequest was denied by an approval controller")
      as (_ & _ & _ & _ & ->).
    destruct (FailureTime (Status_ cr)) eqn:Hft; simpl; congruence.
  - split.
    + apply setReadyCondition_owned; [reflexivity|].
      destruct (FailureTime (Status_ cr)); exact Howned.
    + rewrite setReadyCondition_denied.
      destruct (FailureTime (Status_ cr)); exact Hdenied.
Qed.

(** C4, as amended.  For a request of our group that is not Ready=True and
    is marked denied, [Reconcile] sets [failureTime] to the reading of the
    clock only if it is not set, sets Ready=False with reason Denied, and
    makes one status update; it returns the empty result, with no error
    when that update succeeds and with the update error when it fails.  The
    request is left denied, so that a second invocation takes the same path
    and leaves the [failureTime] of the first as it is. *)
Theorem denied_request_is_failed_once (r : CertificateRequestReconciler)
    (now : Time) (cr : CertificateRequest) :
  spec.denied cr ->
  exists cr' ready,
    certificateRequest (reconcileFetched r now cr) = Some cr'
    /\ updates (reconcileFetched r now cr) = [cr']
    /\ FailureTime (Status_ cr')
       = Some (default (Clock_Now r) (FailureTime (Status_ cr)))
    /\ cmutil.GetCertificateRequestCondition cr' CertificateRequestConditionReady
       = Some ready
    /\ Status ready = cmmeta.ConditionFalse
    /\ Reason ready = CertificateRequestReasonDenied
    /\ returned (reconcileFetched r now cr)
       = Return (ctrl.empty,
                 match Status_Update (client r) cr' with
                 | None => None
                 | Some updateErr => Some (Aggregate [updateErr])
                 end)
    /\ spec.denied cr'
    /\ forall r2 now2,
        exists cr'',
          certificateRequest (reconcileFetched r2 now2 cr') = Some cr''
          /\ FailureTime (Status_ cr'') = FailureTime (Status_ cr').
Proof.
  intros Hdenied.
  destruct (denied_step r now cr Hdenied) as (Hrun & Hft & Hdenied').
  set (cr' := setReadyCondition now _ _ _ _) in *.
  destruct (setReadyCondition_get now
              match FailureTime (Status_ cr) with
              | None => set_FailureTime cr (Some (Clock_Now r))
              | Some _ => cr
              end
              cmmeta.ConditionFalse CertificateRequestReasonDenied
              "The CertificateRequest was denied by an approval controller")
    as (ready & Hget & Hstatus & Hreason & _).
  exists cr', ready. rewrite Hrun. simpl.
  split; [reflexivity|]. split; [reflexivity|]. split; [exact Hft|].
  split; [exact Hget|]. split; [exact Hstatus|]. split; [exact Hreason|].
  split; [reflexivity|]. split; [exact Hdenied'|].
  intros r2 now2.
  destruct (denied_step r2 now2 cr' Hdenied') as (Hrun2 & Hft2 & _).
  eexists. rewrite Hrun2. simpl. split; [reflexivity|].
  rewrite Hft2, Hft. reflexivity.
Qed.

(** *** Signing *)

Lemma Sign_returns_nil s certificateSigningRequest name issuerName signed :
  Sign s certificateSigningRequest name issuerName = Ok signed -> signed = [].
Proof.
  unfold Sign. destruct (DecodeX509CertificateRequestBytes _); [|discriminate].
  destruct (CreateCertificate _ _ _ _); [discriminate|]. congruence.
Qed.

(** The body leaves the request not Ready=True, unless it signed. *)
Ltac not_ready_path Hnot :=
  left; repeat case_match;
  first [exact Hnot
        |apply setReadyCondition_not_ready; [reflexivity|];
         repeat case_match; exact Hnot].

Lemma reconcileIssuer_paths r now cr secretNamespace got cr1 e :
  cmutil.CertificateRequestHasCondition cr spec.readyTrue = false ->
  reconcileIssuer r now cr secretNamespace got = (cr1, e) ->
  cmutil.CertificateRequestHasCondition cr1 spec.readyTrue = false
  \/ (e = Returns ctrl.empty None
      /\ cr1 = setReadyCondition now (set_Certificate cr [])
                cmmeta.ConditionTrue CertificateRequestReasonIssued "Signed").
Proof.
  intros Hnot. unfold reconcileIssuer. intros Hrun.
  repeat case_match; simplify_eq; try (not_ready_path Hnot).
  right. split; [reflexivity|].
  match goal with
  | Hsign : Sign _ _ _ _ = Ok _ |- _ => apply Sign_returns_nil in Hsign; subst
  end.
  reflexivity.
Qed.

Lemma reconcileOwned_paths r now cr cr1 e :
  cmutil.CertificateRequestHasCondition cr spec.readyTrue = false ->
  reconcileOwned r now cr = (cr1, e) ->
  cmutil.CertificateRequestHasCondition cr1 spec.readyTrue = false
  \/ (e = Returns ctrl.empty None
      /\ cr1 = setReadyCondition now (set_Certificate cr [])
                cmmeta.ConditionTrue CertificateRequestReasonIssued "Signed").
Proof.
  intros Hnot. unfold reconcileOwned. intros Hrun.
  repeat match type of Hrun with
         | reconcileIssuer _ _ _ _ _ = _ => fail 1
         | _ => case_match; simplify_eq
         end;
    first [eapply reconcileIssuer_paths; eassumption
          |not_ready_path Hnot].
Qed.

(** C1 (what the code does).  [Sign] discards the answer of the CA and
    returns no bytes when it succeeds; so whenever the reconciliation of a
    request of ours ends with the request Ready=True, that condition has
    reason Issued, the request is the one handed to the status update, and
    the certificate stored in its status is empty. *)
Theorem issued_certificate_is_empty :
  (forall s certificateSigningRequest name issuerName signed,
     Sign s certificateSigningRequest name issuerName = Ok signed -> signed = [])
  /\ (forall (r : CertificateRequestReconciler) (now : Time) (cr cr' : CertificateRequest),
        spec.owned cr ->
        certificateRequest (reconcileFetched r now cr) = Some cr' ->
        cmutil.CertificateRequestHasCondition cr' spec.readyTrue = true ->
        (exists ready,
           cmutil.GetCertificateRequestCondition cr' CertificateRequestConditionReady
           = Some ready
           /\ Status ready = cmmeta.ConditionTrue
           /\ Reason ready = CertificateRequestReasonIssued)
        /\ updates (reconcileFetched r now cr) = [cr']
        /\ Certificate (Status_ cr') = []).
Proof.
  split; [exact Sign_returns_nil|].
  intros r now cr cr' Howned. rewrite (reconcileFetched_owned _ _ _ Howned).
  destruct Howned as [_ Hnot].
  destruct (reconcileOwned r now cr) as [cr1 e] eqn:Hrun.
  apply reconcileOwned_paths in Hrun; [|exact Hnot].
  unfold deferredUpdate. simpl.
  destruct Hrun as [Hnot1|[-> ->]].
  - intros Hcr' Hready. exfalso.
    assert (Hfinal : cmutil.CertificateRequestHasCondition cr' spec.readyTrue = false).
    { destruct e as [result err|msg result err]; simpl in *;
        destruct err as [err|];
        destruct (Status_Update _ _); simpl in Hcr'; inversion Hcr'; subst cr';
        first [exact Hnot1
              |apply setReadyCondition_not_ready; [reflexivity|exact Hnot1]]. }
    congruence.
  - intros Hcr' _.
    assert (Heq : cr' = setReadyCondition now (set_Certificate cr [])
                          cmmeta.ConditionTrue CertificateRequestReasonIssued "Signed").
    { destruct (Status_Update _ _); simpl in Hcr'; congruence. }
    subst cr'.
    destruct (setReadyCondition_get now (set_Certificate cr [])
                cmmeta.ConditionTrue CertificateRequestReasonIssued "Signed")
      as (ready & Hget & Hstatus & Hreason & _).
    split; [eauto|]. split.
    + destruct (Status_Update _ _); reflexivity.
    + destruct (setReadyCondition_frame now (set_Certificate cr [])
                  cmmeta.ConditionTrue CertificateRequestReasonIssued "Signed")
        as (_ & _ & _ & -> & _).
      reflexivity.
Qed.

End Reconciliation.

(** ** Runs on concrete requests *)

Section Scenarios.
Import cmapi controllers.
#[local] Existing Instance fake.libraries.
#[local] Existing Instance fake.package.

(** C1 at the end-to-end scenario of the specification: the request is
    issued and its certificate is empty. *)
Lemma issued_certificate_is_empty_witness :
  spec.owned fake.approvedRequest
  /\ certificateRequest
       (reconcileFetched (fake.reconciler fake.approvedRequest
                            fake.servicePrincipalSecret None) 2000 fake.approvedRequest)
     = Some fake.issuedRequest
  /\ cmutil.CertificateRequestHasCondition fake.issuedRequest spec.readyTrue = true
  /\ updates (fake.run fake.approvedRequest fake.servicePrincipalSecret None)
     = [fake.issuedRequest]
  /\ Certificate (Status_ fake.issuedRequest) = [].
Proof.
  assert (Howned : spec.owned fake.approvedRequest) by (split; reflexivity).
  assert (Hrun : certificateRequest
                   (reconcileFetched (fake.reconciler fake.approvedRequest
                                        fake.servicePrincipalSecret None)
                      2000 fake.approvedRequest)
                 = Some fake.issuedRequest) by (vm_compute; reflexivity).
  assert (Hready : cmutil.CertificateRequestHasCondition fake.issuedRequest
                     spec.readyTrue = true) by reflexivity.
  destruct (proj2 issued_certificate_is_empty _ _ _ _ Howned Hrun Hready)
    as (_ & Hupd & Hcert).
  repeat split; assumption.
Defined.

(** C3 (what the code does).  With a secret that holds no credentials the
    signer cannot be built: [Reconcile] returns an error and records it under
    Ready=False with reason Pending, and the text of both is "failed to get
    issuer client for {issuerName}: {cause}"; it does not contain the text of
    [errSignerBuilder], "failed to build the signer", which the reconciler
    declares and never uses. *)
Theorem signer_build_failure_message :
  let message :=
    "failed to get issuer client for my-ca: no credentials provided for accessing keyvault" in
  NewSigner ∅ "my-vault1"
  = Return (Err (errorString "no credentials provided for accessing keyvault"))
  /\ returned (fake.run fake.approvedRequest ∅ None)
     = Return (ctrl.empty, Some (Plain (errorString message)))
  /\ updates (fake.run fake.approvedRequest ∅ None) = [fake.pendingRequest message]
  /\ Contains message (Error errSignerBuilder) = false.
Proof. vm_compute. repeat split; reflexivity. Qed.

(** C2 as stated fails on a request of another group: no status update is
    attempted. *)
Lemma foreign_request_is_not_persisted :
  ~ (forall (L : Libraries) (P : Package) (r : CertificateRequestReconciler)
       (now : Time) (cr : CertificateRequest),
       length (updates (reconcileFetched r now cr)) = 1%nat).
Proof.
  intros Hclaim.
  specialize (Hclaim fake.libraries fake.package
                (fake.reconciler fake.foreignRequest ∅ None) 2000 fake.foreignRequest).
  vm_compute in Hclaim. discriminate.
Qed.

(** C2 as amended, at a failed signer build followed by a failed status
    update: one update, and both errors in the aggregate. *)
Lemma status_update_attempts_witness :
  let r := fake.reconciler fake.approvedRequest ∅ (Some (errorString "conflict")) in
  let message :=
    "failed to get issuer client for my-ca: no credentials provided for accessing keyvault" in
  spec.owned fake.approvedRequest
  /\ updates (reconcileFetched r 2000 fake.approvedRequest)
     = [fake.pendingRequest message]
  /\ returned (reconcileFetched r 2000 fake.approvedRequest)
     = Return (ctrl.empty,
               Some (Aggregate [errorString message; errorString "conflict"])).
Proof.
  intros r message.
  assert (Howned : spec.owned fake.approvedRequest) by (split; reflexivity).
  destruct (proj2 (status_update_attempts r 2000 fake.approvedRequest) Howned)
    as (cr' & Hupd & _ & Hfail).
  assert (Hcr' : cr' = fake.pendingRequest message).
  { assert (Hrun : updates (reconcileFetched r 2000 fake.approvedRequest)
                   = [fake.pendingRequest message]) by (vm_compute; reflexivity).
    congruence. }
  subst cr'. specialize (Hfail (errorString "conflict") eq_refl).
  split; [exact Howned|]. split; [exact Hupd|exact Hfail].
Defined.

(** C4 as stated fails on a denied request whose status update fails: the
    update error is returned. *)
Lemma denied_update_failure_is_returned :
  ~ (forall (L : Libraries) (P : Package) (r : CertificateRequestReconciler)
       (now : Time) (cr : CertificateRequest),
       spec.denied cr ->
       returned (reconcileFetched r now cr) = Return (ctrl.empty, None)).
Proof.
  intros Hclaim.
  specialize (Hclaim fake.libraries fake.package
                (fake.reconciler fake.deniedRequest ∅ (Some (errorString "conflict")))
                2000 fake.deniedRequest).
  assert (Hdenied : spec.denied fake.deniedRequest) by (repeat split; reflexivity).
  specialize (Hclaim Hdenied). vm_compute in Hclaim. discriminate.
Qed.

(** C4 as amended, at a denied request reconciled twice: the failure time
    of the first invocation stays. *)
Lemma denied_request_is_failed_once_witness :
  let r := fake.reconciler fake.deniedRequest ∅ None in
  spec.denied fake.deniedRequest
  /\ certificateRequest (reconcileFetched r 2000 fake.deniedRequest)
     = Some fake.failedRequest
  /\ returned (reconcileFetched r 2000 fake.deniedRequest) = Return (ctrl.empty, None)
  /\ FailureTime (Status_ fake.failedRequest) = Some 1000
  /\ exists cr'',
      certificateRequest (reconcileFetched r 3000 fake.failedRequest) = Some cr''
      /\ FailureTime (Status_ cr'') = Some 1000.
Proof.
  intros r.
  assert (Hdenied : spec.denied fake.deniedRequest) by (repeat split; reflexivity).
  destruct (denied_request_is_failed_once r 2000 fake.deniedRequest Hdenied)
    as (cr' & ready & Hcr' & _ & Hft & _ & _ & _ & Hret & _ & Hagain).
  assert (Heq : cr' = fake.failedRequest).
  { assert (Hrun : certificateRequest (reconcileFetched r 2000 fake.deniedRequest)
                   = Some fake.failedRequest) by (vm_compute; reflexivity).
    congruence. }
  subst cr'. split; [exact Hdenied|]. split; [exact Hcr'|]. split; [exact Hret|].
  split; [reflexivity|exact (Hagain r 3000)].
Defined.

(** C5 at two edits of a status record with one Ready condition. *)
Lemma SetReadyCondition_invariant_witness :
  (spec.readyCount fake.readyOnce <= 1)%nat
  /\ (spec.readyCount (spec.applyAll fake.readyOnce fake.edits) <= 1)%nat.
Proof.
  assert (Hone : (spec.readyCount fake.readyOnce <= 1)%nat) by (vm_compute; lia).
  split; [exact Hone|].
  exact (proj1 SetReadyCondition_invariant fake.readyOnce fake.edits Hone).
Defined.

(** C6 as stated fails on a managed-identity config in an environment for
    which no OAuth configuration can be built: the builder returns that
    error and no strategy is selected. *)
Lemma no_strategy_without_oauth_config :
  ~ (forall (L : Libraries) (config : authConfig) (env : Environment)
       (resource : string),
       spec.strategy_selected config env resource).
Proof.
  intros Hclaim.
  destruct (Hclaim fake.libraries fake.userAssignedConfig fake.noDirectoryCloud
              "https://vault.azure.net") as (Huser & _).
  destruct Huser as (msiEndpoint & _ & Hsource); [reflexivity|discriminate|].
  vm_compute in Hsource. discriminate.
Qed.

(** C6 as amended, at client credentials in the public cloud: the service
    principal, scoped to the vault endpoint without its slash. *)
Lemma getServicePrincipalToken_strategy_witness :
  NewOAuthConfig (ActiveDirectoryEndpoint fake.AzurePublicCloud)
    (tenantID fake.servicePrincipalConfig)
  = Ok ("https://login.microsoftonline.com/", "t")
  /\ spec.strategy_selected fake.servicePrincipalConfig fake.AzurePublicCloud
       "https://vault.azure.net"
  /\ getKeyvaultToken fake.servicePrincipalConfig fake.AzurePublicCloud
     = Return (Ok (fake.FromSecret ("https://login.microsoftonline.com/", "t")
                     "c" "s" "https://vault.azure.net")).
Proof.
  destruct (getServicePrincipalToken_strategy fake.servicePrincipalConfig
              fake.AzurePublicCloud "https://vault.azure.net")
    as (_ & _ & Hselected & _).
  destruct (getServicePrincipalToken_strategy fake.servicePrincipalConfig
              fake.AzurePublicCloud "")
    as (_ & _ & _ & Hresource).
  split; [reflexivity|]. split.
  - apply (Hselected ("https://login.microsoftonline.com/", "t")); [reflexivity|].
    intros Hmi. discriminate Hmi.
  - rewrite Hresource; [reflexivity|discriminate].
Defined.

(** C7 at the accepted name of the specification. *)
Lemma getVaultURL_validates_witness :
  spec.valid_vault_name "my-vault1"
  /\ getVaultURL fake.AzurePublicCloud "my-vault1" = Ok "https://my-vault1.vault.azure.net/".
Proof.
  assert (Hvalid : spec.valid_vault_name "my-vault1").
  { apply valid_vault_name_checks. split; reflexivity. }
  split; [exact Hvalid|].
  exact (proj1 (proj2 (getVaultURL_validates fake.AzurePublicCloud "my-vault1")) Hvalid).
Defined.

(** C8 at a request of the cert-manager group. *)
Lemma foreign_group_is_ignored_witness :
  cmmeta.Group (IssuerRef (Spec fake.foreignRequest)) <> GroupVersion_Group
  /\ fake.run fake.foreignRequest ∅ None
     = {| returned := Return (ctrl.empty, None); updates := [];
          certificateRequest := Some fake.foreignRequest |}.
Proof.
  assert (Hforeign : cmmeta.Group (IssuerRef (Spec fake.foreignRequest))
                     <> GroupVersion_Group) by discriminate.
  split; [exact Hforeign|].
  exact (proj2 (foreign_group_is_ignored
                  (fake.reconciler fake.foreignRequest ∅ None) 2000
                  fake.foreignRequest Hforeign)
           fake.key eq_refl).
Defined.

(** C9 as stated fails on a payload whose flag is present and empty: it is
    not parseable as a boolean and yet no configuration error. *)
Lemma empty_flag_is_not_an_error :
  ~ (forall (L : Libraries) (data : gmap string (list byte)) (v : list byte),
       data !! useManagedIdentityKey = Some v ->
       is_Err (ParseBool (string_of_bytes v)) = true ->
       is_Err (getConfigFromSecretData data) = true).
Proof.
  intros Hclaim.
  specialize (Hclaim fake.libraries (<[useManagedIdentityKey := []]> ∅) []).
  rewrite lookup_insert_eq in Hclaim.
  specialize (Hclaim eq_refl eq_refl).
  vm_compute in Hclaim. discriminate.
Qed.

(** C9 as amended, at the payload of a config with client credentials. *)
Lemma getConfigFromSecretData_roundtrip_witness :
  (forall b, ParseBool (spec.FormatBool b) = Ok b)
  /\ getConfigFromSecretData (spec.serialize spec.FormatBool fake.servicePrincipalConfig)
     = Ok fake.servicePrincipalConfig.
Proof.
  split; [exact ParseBool_FormatBool|].
  exact (proj1 getConfigFromSecretData_roundtrip spec.FormatBool
           fake.servicePrincipalConfig ParseBool_FormatBool).
Defined.

(** C10 at the public cloud, whose endpoint has a last byte, and at an
    environment without a vault endpoint. *)
Lemma getKeyvaultToken_bounds_witness :
  KeyVaultEndpoint fake.AzurePublicCloud <> ""
  /\ (exists r,
        getKeyvaultToken fake.servicePrincipalConfig fake.AzurePublicCloud = Return r)
  /\ KeyVaultEndpoint fake.noVaultCloud = ""
  /\ getKeyvaultToken fake.servicePrincipalConfig fake.noVaultCloud
     = Panic index_out_of_range.
Proof.
  assert (Hne : KeyVaultEndpoint fake.AzurePublicCloud <> "") by discriminate.
  split; [exact Hne|]. split.
  - exact (proj2 (proj2 (getKeyvaultToken_bounds fake.servicePrincipalConfig
                           fake.AzurePublicCloud) Hne)).
  - split; [reflexivity|].
    exact (proj1 (proj2 (proj1 (getKeyvaultToken_bounds fake.servicePrincipalConfig
                                  fake.noVaultCloud) eq_refl))).
Defined.

End Scenarios.

(** * Further properties of the code *)

(** ** package util: the condition store *)

Section ConditionStoreMore.
Import v1alpha1 util.

Lemma IssuerStatus_eq (a b : IssuerStatus) : Conditions a = Conditions b -> a = b.
Proof. destruct a, b; simpl; congruence. Qed.

(** Where the Ready condition sits after a Set, and what it is *)
Lemma SetReadyCondition_find now status conditionStatus reason message :
  let old := spec.readyBefore status in
  let ready :=
    {| Type_ := IssuerConditionReady; Status := conditionStatus;
       LastTransitionTime :=
         if String.eqb (Status old) conditionStatus then LastTransitionTime old
         else Some now;
       Reason := reason; Message := message |} in
  list_find isReadyType
    (Conditions (SetReadyCondition now status conditionStatus reason message))
  = Some (match list_find isReadyType (Conditions status) with
          | Some (i, _) => i
          | None => length (Conditions status)
          end, ready).
Proof.
  cbv zeta. rewrite SetReadyCondition_unfold. cbv zeta.
  destruct (list_find isReadyType (Conditions status)) as [[i old]|] eqn:Hfind.
  - erewrite list_find_insert by (eauto; reflexivity). reflexivity.
  - erewrite list_find_snoc by (eauto; reflexivity). reflexivity.
Qed.

(** X1. A Set writes one slot of the list, the one of the first Ready condition
    or, when there is none, a new last one; every other slot, Ready or not,
    keeps its condition and its place. *)
Theorem SetReadyCondition_writes_one_slot (now : Time) (status : IssuerStatus)
    (conditionStatus reason message : string) :
  let before := Conditions status in
  let after := Conditions (SetReadyCondition now status conditionStatus reason message) in
  exists i ready,
    after !! i = Some ready
    /\ isReadyType ready
    /\ (forall j, j <> i -> after !! j = before !! j)
    /\ (before !! i = None /\ i = length before
        \/ exists old, before !! i = Some old /\ isReadyType old
                       /\ forall j c, before !! j = Some c -> (j < i)%nat ->
                                      ~ isReadyType c)
    /\ length after = Nat.max (length before) (S i).
Proof.
  cbv zeta. rewrite SetReadyCondition_unfold. cbv zeta.
  destruct (list_find isReadyType (Conditions status)) as [[i old]|] eqn:Hfind.
  - apply list_find_Some in Hfind as (Hi & Hold & Hfirst).
    pose proof (lookup_lt_Some _ _ _ Hi) as Hlt.
    eexists i, _. split; [apply list_lookup_insert_eq; exact Hlt|].
    split; [reflexivity|]. split.
    + intros j Hj. apply list_lookup_insert_ne. congruence.
    + split; [right; eauto|]. rewrite length_insert. lia.
  - eexists (length (Conditions status)), _. split.
    + rewrite lookup_app_r by lia. rewrite Nat.sub_diag. reflexivity.
    + split; [reflexivity|]. split; [|split].
      * intros j Hj.
        destruct (Nat.lt_ge_cases j (length (Conditions status))) as [Hlt|Hge].
        -- apply lookup_app_l. exact Hlt.
        -- rewrite (lookup_ge_None_2 (Conditions status)) by exact Hge.
           apply lookup_ge_None_2. rewrite length_app. simpl. lia.
      * left. split; [apply lookup_ge_None_2; lia|reflexivity].
      * rewrite length_app. simpl. lia.
Qed.

(** X2. The same Set made again, at any later time, changes nothing: the
    transition time of the first Set stays. *)
Theorem SetReadyCondition_idempotent (now1 now2 : Time) (status : IssuerStatus)
    (conditionStatus reason message : string) :
  SetReadyCondition now2
    (SetReadyCondition now1 status conditionStatus reason message)
    conditionStatus reason message
  = SetReadyCondition now1 status conditionStatus reason message.
Proof.
  apply IssuerStatus_eq.
  pose proof (SetReadyCondition_find now1 status conditionStatus reason message) as Hfind.
  cbv zeta in Hfind.
  set (s1 := SetReadyCondition now1 status conditionStatus reason message) in *.
  rewrite SetReadyCondition_unfold. cbv zeta.
  assert (Hbefore : spec.readyBefore s1
                    = {| Type_ := IssuerConditionReady; Status := conditionStatus;
                         LastTransitionTime :=
                           if String.eqb (Status (spec.readyBefore status)) conditionStatus
                           then LastTransitionTime (spec.readyBefore status)
                           else Some now1;
                         Reason := reason; Message := message |}).
  { unfold spec.readyBefore at 1, GetReadyCondition. rewrite Hfind. reflexivity. }
  rewrite Hbefore, Hfind. cbn [Status LastTransitionTime].
  rewrite String.eqb_refl.
  apply list_insert_id.
  apply list_find_Some in Hfind as (Hi & _). exact Hi.
Qed.

(** X3. After a Set the issuer is ready exactly when the status set is "True",
    whatever the list held before. *)
Theorem IsReady_SetReadyCondition (now : Time) (status : IssuerStatus)
    (conditionStatus reason message : string) :
  IsReady (SetReadyCondition now status conditionStatus reason message)
  = String.eqb conditionStatus ConditionTrue.
Proof.
  unfold IsReady, GetReadyCondition.
  pose proof (SetReadyCondition_find now status conditionStatus reason message) as Hfind.
  cbv zeta in Hfind. rewrite Hfind. reflexivity.
Qed.

End ConditionStoreMore.

(** ** package signer *)

Section SignerMore.
Context {L : Libraries}.

Lemma append_length a b :
  String.length (a +:+ b) = (String.length a + String.length b)%nat.
Proof. induction a as [|c a IH]; simpl; [reflexivity|]. rewrite IH. reflexivity. Qed.

Lemma append_inj_r a b c : a +:+ c = b +:+ c -> a = b.
Proof.
  revert b. induction a as [|x a IH]; intros [|y b] Heq; simpl in Heq.
  - reflexivity.
  - apply (f_equal String.length) in Heq.
    change (String.length c = S (String.length (b +:+ c))) in Heq.
    rewrite (append_length b c) in Heq. lia.
  - apply (f_equal String.length) in Heq.
    change (S (String.length (a +:+ c)) = String.length c) in Heq.
    rewrite (append_length a c) in Heq. lia.
  - injection Heq as -> Heq. f_equal. apply IH, Heq.
Qed.

Lemma append_nil_l s : "" +:+ s = s.
Proof. reflexivity. Qed.

Lemma append_cons c a b : String c a +:+ b = String c (a +:+ b).
Proof. reflexivity. Qed.

Lemma append_inj_l p a b : p +:+ a = p +:+ b -> a = b.
Proof.
  induction p as [|c p IH]; rewrite ?append_cons, ?append_nil_l; [auto|].
  intros Heq. injection Heq as Heq. auto.
Qed.

(** The first dot of a text that starts with a vault name ends the name. *)
Lemma split_at_dot n1 n2 t1 t2 :
  forallb in_class (list_ascii_of_string n1) = true ->
  forallb in_class (list_ascii_of_string n2) = true ->
  n1 +:+ "." +:+ t1 = n2 +:+ "." +:+ t2 -> n1 = n2 /\ t1 = t2.
Proof.
  revert n2. induction n1 as [|a n1 IH]; intros [|b n2] H1 H2 Heq;
    simpl in H1, H2; rewrite ?append_cons, ?append_nil_l in Heq.
  - injection Heq as ->. auto.
  - injection Heq as <- _. discriminate.
  - injection Heq as -> _. discriminate.
  - injection Heq as -> Heq.
    apply andb_true_iff in H1 as [_ H1]. apply andb_true_iff in H2 as [_ H2].
    destruct (IH n2 H1 H2 Heq) as [-> ->]. auto.
Qed.

Lemma getVaultURL_Ok env vaultName url :
  getVaultURL env vaultName = Ok url ->
  spec.valid_vault_name vaultName
  /\ isValid vaultName = true
  /\ url = "https://" +:+ vaultName +:+ "." +:+ KeyVaultDNSSuffix env +:+ "/".
Proof.
  unfold getVaultURL.
  destruct ((len vaultName <? 3) || (len vaultName >? 24)) eqn:Hlen; [discriminate|].
  destruct (isValid vaultName) eqn:Hre; simpl; [|discriminate].
  intros Hok. split; [apply valid_vault_name_checks; auto|].
  split; [reflexivity|congruence].
Qed.

(** X4. The vault URL determines the vault name and the DNS suffix of the
    cloud: two accepted names give the same URL only if they are the same
    name, in clouds with the same suffix. *)
Theorem getVaultURL_injective (env1 env2 : Environment) (name1 name2 url : string) :
  getVaultURL env1 name1 = Ok url ->
  getVaultURL env2 name2 = Ok url ->
  name1 = name2 /\ KeyVaultDNSSuffix env1 = KeyVaultDNSSuffix env2.
Proof.
  intros H1 H2.
  apply getVaultURL_Ok in H1 as (_ & Hv1 & ->).
  apply getVaultURL_Ok in H2 as (_ & Hv2 & Heq).
  unfold isValid in Hv1, Hv2.
  apply andb_true_iff in Hv1 as [_ Hv1]. apply andb_true_iff in Hv2 as [_ Hv2].
  apply append_inj_l in Heq.
  destruct (split_at_dot _ _ _ _ Hv1 Hv2 Heq) as [Hname Hsuffix].
  split; [exact Hname|]. apply append_inj_r in Hsuffix. exact Hsuffix.
Qed.

(** X5. The parser reads the six keys of the auth config and nothing else, and
    does not tell a missing key from a key with an empty value: two payloads
    with the same bytes under those keys give the same result. *)
Theorem getConfigFromSecretData_reads_six_keys (data1 data2 : gmap string (list byte)) :
  Forall (fun key => at_key data1 key = at_key data2 key)
    [cloudKey; tenantIDKey; aadClientIDKey; aadClientSecretKey;
     useManagedIdentityKey; userAssignedIdentityIDKey] ->
  getConfigFromSecretData data1 = getConfigFromSecretData data2.
Proof.
  intros Hsame. repeat (apply Forall_cons_1 in Hsame as [? Hsame]).
  cbv beta in *. unfold getConfigFromSecretData.
  repeat match goal with
         | Hkey : at_key data1 _ = at_key data2 _ |- _ => rewrite Hkey; clear Hkey
         end.
  reflexivity.
Qed.

(** X6. With [useManagedIdentity] the client id and secret of the config play no
    part, and with a user-assigned identity the resource plays none either:
    that token is asked for the service management endpoint of the cloud,
    not for the resource handed in. *)
Theorem managed_identity_ignores_client_credentials :
  (forall cloud tenantID clientID1 secret1 clientID2 secret2 identity env resource,
     getServicePrincipalToken
       {| cloud := cloud; tenantID := tenantID; aadClientID := clientID1;
          aadClientSecret := secret1; useManagedIdentity := true;
          userAssignedIdentityID := identity |} env resource
     = getServicePrincipalToken
         {| cloud := cloud; tenantID := tenantID; aadClientID := clientID2;
            aadClientSecret := secret2; useManagedIdentity := true;
            userAssignedIdentityID := identity |} env resource)
  /\ (forall config env resource1 resource2,
        useManagedIdentity config = true ->
        userAssignedIdentityID config <> "" ->
        getServicePrincipalToken config env resource1
        = getServicePrincipalToken config env resource2).
Proof.
  split.
  - intros. reflexivity.
  - intros config env resource1 resource2 Hmi Hid.
    unfold getServicePrincipalToken. rewrite Hmi.
    apply len_pos_iff in Hid. rewrite Hid. reflexivity.
Qed.

Lemma strip_trailing_slash_cases s :
  s = spec.strip_trailing_slash s +:+ "/"
  \/ (spec.strip_trailing_slash s = s /\ forall p, s <> p +:+ "/").
Proof.
  induction s as [|c s IH].
  - right. split; [reflexivity|]. intros [|x p]; discriminate.
  - destruct s as [|c' s].
    + simpl. destruct (Ascii.eqb_spec c "/") as [->|Hc].
      * left. reflexivity.
      * right. split; [reflexivity|].
        intros [|x p] Heq; rewrite ?append_cons, ?append_nil_l in Heq.
        -- injection Heq as ->. contradiction.
        -- injection Heq as _ Heq. destruct p; discriminate.
    + change (spec.strip_trailing_slash (String c (String c' s)))
        with (String c (spec.strip_trailing_slash (String c' s))).
      destruct IH as [IH|[IH Hno]].
      * left. rewrite append_cons, <- IH. reflexivity.
      * right. rewrite IH. split; [reflexivity|].
        intros [|x p] Heq; rewrite ?append_cons, ?append_nil_l in Heq;
          [discriminate|].
        injection Heq as _ Heq. exact (Hno p Heq).
Qed.

(** X7. The resource for which [getKeyvaultToken] asks a token is the vault
    endpoint of the cloud, less its last byte when that is a slash: exactly
    one slash is taken off, so an endpoint that ends with two keeps one. *)
Theorem getKeyvaultToken_strips_one_slash (config : authConfig) (env : Environment) :
  KeyVaultEndpoint env <> "" ->
  exists resource,
    getKeyvaultToken config env
    = Return match getServicePrincipalToken config env resource with
             | Err err => Err err
             | Ok servicePrincipalToken => Ok (NewBearerAuthorizer servicePrincipalToken)
             end
    /\ (KeyVaultEndpoint env = resource +:+ "/"
        \/ (KeyVaultEndpoint env = resource /\ forall p, resource <> p +:+ "/")).
Proof.
  intros Hne. exists (spec.strip_trailing_slash (KeyVaultEndpoint env)).
  split; [apply getKeyvaultToken_resource, Hne|].
  destruct (strip_trailing_slash_cases (KeyVaultEndpoint env)) as [Hcut|[Hsame Hno]].
  - left. exact Hcut.
  - right. rewrite Hsame. auto.
Qed.

(** X8. What a signer that [NewSigner] returns vouches for: the secret parsed
    to a config, its cloud resolved to an environment with a vault
    endpoint, the vault name is valid, the signer is bound to the URL of
    that vault in that cloud, and the config holds a credential (the
    managed identity, or a client id with its secret). *)
Theorem NewSigner_success (creds : gmap string (list byte)) (vaultName : string)
    (s : caSigner) :
  NewSigner creds vaultName = Return (Ok s) ->
  spec.valid_vault_name vaultName
  /\ exists config env,
      getConfigFromSecretData creds = Ok config
      /\ parseCloudEnvironment (cloud config) = Ok env
      /\ KeyVaultEndpoint env <> ""
      /\ vaultURL s
         = "https://" +:+ vaultName +:+ "." +:+ KeyVaultDNSSuffix env +:+ "/"
      /\ (useManagedIdentity config = true
          \/ (aadClientID config <> "" /\ aadClientSecret config <> "")).
Proof.
  unfold NewSigner.
  destruct (AddToUserAgent kv_New "cert-manager-issuer") as [kvClient [err|]];
    [discriminate|].
  destruct (getConfigFromSecretData creds) as [config|err] eqn:Hcfg; [|discriminate].
  destruct (parseCloudEnvironment (cloud config)) as [env|err] eqn:Henv;
    [|discriminate].
  destruct (getVaultURL env vaultName) as [url|err] eqn:Hurl; [|discriminate].
  apply getVaultURL_Ok in Hurl as (Hvalid & _ & ->).
  destruct (getKeyvaultToken config env) as [[authorizer|err]|msg] eqn:Htoken;
    try discriminate.
  intros Hs. injection Hs as <-. split; [exact Hvalid|].
  exists config, env. simpl.
  assert (Hendpoint : KeyVaultEndpoint env <> "").
  { intros Hempty. unfold getKeyvaultToken in Htoken. rewrite Hempty in Htoken.
    discriminate. }
  split; [reflexivity|]. split; [exact Henv|]. split; [exact Hendpoint|].
  split; [reflexivity|].
  rewrite (getKeyvaultToken_resource _ _ Hendpoint) in Htoken.
  unfold getServicePrincipalToken in Htoken.
  destruct (NewOAuthConfig _ _); [|discriminate].
  destruct (useManagedIdentity config); [left; reflexivity|right].
  destruct (len (aadClientID config) >? 0) eqn:Hid; [|discriminate].
  destruct (len (aadClientSecret config) >? 0) eqn:Hsecret; [|discriminate].
  split; apply len_pos_iff; assumption.
Qed.

(** X9. [NewSigner] panics only past all its checks: a panic means that the
    user agent was set, the secret parsed, the cloud resolved and the
    vault name passed validation, and that the environment of the cloud
    has an empty vault endpoint.  A bad secret, an unknown cloud or an
    invalid vault name is always an error value. *)
Theorem NewSigner_panics_only_on_empty_endpoint (creds : gmap string (list byte))
    (vaultName msg : string) :
  NewSigner creds vaultName = Panic msg ->
  msg = index_out_of_range
  /\ spec.valid_vault_name vaultName
  /\ exists kvClient config env,
      AddToUserAgent kv_New "cert-manager-issuer" = (kvClient, None)
      /\ getConfigFromSecretData creds = Ok config
      /\ parseCloudEnvironment (cloud config) = Ok env
      /\ KeyVaultEndpoint env = "".
Proof.
  unfold NewSigner.
  destruct (AddToUserAgent kv_New "cert-manager-issuer") as [kvClient [err|]] eqn:Hua;
    [discriminate|].
  destruct (getConfigFromSecretData creds) as [config|err] eqn:Hcfg; [|discriminate].
  destruct (parseCloudEnvironment (cloud config)) as [env|err] eqn:Henv;
    [|discriminate].
  destruct (getVaultURL env vaultName) as [url|err] eqn:Hurl; [|discriminate].
  apply getVaultURL_Ok in Hurl as (Hvalid & _ & _).
  destruct (getKeyvaultToken config env) as [[authorizer|err]|msg'] eqn:Htoken;
    try discriminate.
  intros Hmsg. injection Hmsg as <-.
  destruct (String.eqb_spec (KeyVaultEndpoint env) "") as [Hempty|Hne].
  - unfold getKeyvaultToken in Htoken. rewrite Hempty in Htoken.
    injection Htoken as <-. split; [reflexivity|]. split; [exact Hvalid|].
    exists kvClient, config, env. auto.
  - rewrite (getKeyvaultToken_resource _ _ Hne) in Htoken. discriminate.
Qed.

(** X10. The first revision of the signer reads the cloud name under the key
    the parser reads it under, and accepts every secret and vault name that
    the current [NewSigner] accepts: the current one only adds checks. *)
Theorem first_revision_accepts_more (creds : gmap string (list byte))
    (vaultName : string) :
  (forall config,
     getConfigFromSecretData creds = Ok config ->
     signer0.cloudEnvironment creds = cloud config)
  /\ (forall s,
        NewSigner creds vaultName = Return (Ok s) ->
        exists kvClient,
          signer0.NewSigner creds vaultName
          = Ok {| signer0.baseClient := kvClient |}
          /\ exists authorizer, baseClient s = set_Authorizer kvClient authorizer).
Proof.
  assert (Hcloud : forall config,
             getConfigFromSecretData creds = Ok config ->
             signer0.cloudEnvironment creds = cloud config).
  { intros config. rewrite getConfigFromSecretData_flag. cbv zeta.
    unfold signer0.cloudEnvironment.
    destruct (at_key creds useManagedIdentityKey) as [|b v];
      [|destruct (ParseBool _)]; intros Hcfg; inversion Hcfg; reflexivity. }
  split; [exact Hcloud|].
  intros s. unfold NewSigner, signer0.NewSigner.
  destruct (AddToUserAgent kv_New "cert-manager-issuer") as [kvClient [err|]];
    [discriminate|].
  destruct (getConfigFromSecretData creds) as [config|err] eqn:Hcfg; [|discriminate].
  rewrite (Hcloud config eq_refl).
  destruct (parseCloudEnvironment (cloud config)) as [env|err]; [|discriminate].
  destruct (getVaultURL env vaultName) as [url|err]; [|discriminate].
  destruct (getKeyvaultToken config env) as [[authorizer|err]|msg]; try discriminate.
  intros Hs. injection Hs as <-. exists kvClient. split; [reflexivity|].
  exists authorizer. reflexivity.
Qed.

End SignerMore.

(** ** package main *)

Section InCluster.
Context {O : OS}.

(** X11. [getInClusterNamespace] gives a namespace exactly when the namespace
    file exists and can be read, and then the bytes of the file as they are
    (nothing is trimmed).  A file that does not exist is reported by
    [errNotInCluster] itself; every other failure wraps the error of the
    file system, which stays its cause. *)
Theorem getInClusterNamespace_outcomes :
  (forall namespace,
     main.getInClusterNamespace = Ok namespace <->
     Stat main.inClusterNamespacePath = None
     /\ exists content,
         ReadFile main.inClusterNamespacePath = Ok content
         /\ namespace = string_of_bytes content)
  /\ (forall err,
        main.getInClusterNamespace = Err err ->
        (err = main.errNotInCluster
         /\ exists cause,
             Stat main.inClusterNamespacePath = Some cause
             /\ IsNotExist cause = true)
        \/ (exists msg cause,
              err = wrapError msg cause
              /\ (Stat main.inClusterNamespacePath = Some cause
                     /\ IsNotExist cause = false
                  \/ Stat main.inClusterNamespacePath = None
                     /\ ReadFile main.inClusterNamespacePath = Err cause))).
Proof.
  unfold main.getInClusterNamespace, main.os_IsNotExist.
  destruct (Stat main.inClusterNamespacePath) as [cause|] eqn:Hstat.
  - destruct (IsNotExist cause) eqn:Hmissing; split.
    + intros namespace. split; [discriminate|]. intros [Hnone _]. discriminate.
    + intros err Herr. injection Herr as <-. left. eauto.
    + intros namespace. split; [discriminate|]. intros [Hnone _]. discriminate.
    + intros err Herr. injection Herr as <-. right. eauto 6.
  - destruct (ReadFile main.inClusterNamespacePath) as [content|cause] eqn:Hread; split.
    + intros namespace. split.
      * intros Hok. injection Hok as <-. eauto.
      * intros (_ & content' & Hcontent & ->). congruence.
    + discriminate.
    + intros namespace. split; [discriminate|].
      intros (_ & content & Hcontent & _). discriminate.
    + intros err Herr. injection Herr as <-. right. eauto 6.
Qed.

End InCluster.

(** ** package controllers: the reconciler *)

Section ReconcilerMore.
Context {L : Libraries} {P : Package}.
Import cmapi controllers notions.

(** *** What a reconciliation leaves alone *)

Lemma filter_other_insert (conds : list CertificateRequestCondition) i old new :
  conds !! i = Some old -> ~ isOtherType old -> ~ isOtherType new ->
  filter isOtherType (<[i := new]> conds) = filter isOtherType conds.
Proof.
  revert i. induction conds as [|c conds IH]; intros i Hi Hold Hnew; [discriminate|].
  destruct i as [|i]; simpl in *.
  - inversion Hi; subst c. rewrite !filter_cons.
    destruct (decide (isOtherType new)), (decide (isOtherType old)); tauto.
  - rewrite !filter_cons. rewrite (IH i); auto.
Qed.

Lemma otherConditions_setReadyCondition now cr status reason message :
  otherConditions (setReadyCondition now cr status reason message)
  = otherConditions cr.
Proof.
  unfold otherConditions, setReadyCondition, cmutil.SetCertificateRequestCondition.
  destruct (list_find _ (Conditions (Status_ cr))) as [[i c]|] eqn:Hfind; simpl.
  - apply list_find_Some in Hfind as (Hi & Hc & _).
    apply (filter_other_insert _ _ c);
      [exact Hi|intros Hne; apply Hne; exact Hc|intros Hne; apply Hne; reflexivity].
  - rewrite filter_app, filter_cons.
    destruct (decide (isOtherType _)) as [Hother|_];
      [exfalso; apply Hother; reflexivity|].
    rewrite filter_nil. apply app_nil_r.
Qed.

Lemma framed_refl cr : framed cr cr.
Proof. repeat split. Qed.

Lemma framed_setReadyCondition now cr cr1 status reason message :
  framed cr cr1 -> framed cr (setReadyCondition now cr1 status reason message).
Proof.
  intros (Hname & Hns & Hspec & Hothers). unfold framed.
  destruct (setReadyCondition_frame now cr1 status reason message)
    as (H1 & H2 & H3 & _).
  rewrite H1, H2, H3, otherConditions_setReadyCondition.
  repeat split; assumption.
Qed.

Ltac choose_shape :=
  split; [reflexivity|];
  first [left; reflexivity
        |right; left; split; [reflexivity|]; eexists _, _; reflexivity
        |right; right; left; split; [reflexivity|];
         split; [assumption|]; split; [first [assumption|reflexivity]|];
         eexists; reflexivity
        |right; right; right; split; reflexivity].

Lemma reconcileIssuer_shape r now cr secretNamespace got cr1 e :
  reconcileIssuer r now cr secretNamespace got = (cr1, e) ->
  exit_result e = ctrl.empty /\ body_shape r now cr cr1 e.
Proof.
  unfold reconcileIssuer, body_shape. intros Hrun.
  repeat case_match; simplify_eq;
    try match goal with
        | Hsign : Sign _ _ _ _ = Ok _ |- _ => apply Sign_returns_nil in Hsign; subst
        end;
    choose_shape.
Qed.

Lemma reconcileOwned_shape r now cr cr1 e :
  reconcileOwned r now cr = (cr1, e) ->
  exit_result e = ctrl.empty /\ body_shape r now cr cr1 e.
Proof.
  unfold reconcileOwned. intros Hrun.
  repeat match type of Hrun with
         | reconcileIssuer _ _ _ _ _ = _ => fail 1
         | _ => case_match; simplify_eq
         end;
    first [eapply reconcileIssuer_shape; eassumption
          |unfold body_shape; repeat case_match; choose_shape].
Qed.

(** The request at the end of an invocation, from the one the body left *)
Lemma deferredUpdate_request r now cr1 e :
  certificateRequest (deferredUpdate r now cr1 e)
  = Some match spec.prior_error e with
         | Some err =>
             setReadyCondition now cr1 cmmeta.ConditionFalse
               CertificateRequestReasonPending (Error err)
         | None => cr1
         end.
Proof.
  unfold deferredUpdate.
  destruct e as [result err|msg result err]; simpl;
    destruct (Status_Update _ _); reflexivity.
Qed.

(** X12. [Reconcile] never asks for a requeue of its own: whenever it returns,
    the result is the empty [ctrl.Result], so that a retry is asked for by
    the error alone. *)
Theorem Reconcile_never_requeues (r : CertificateRequestReconciler) (now : Time)
    (req : types.NamespacedName) (result : ctrl.Result)
    (err : option ReconcileError) :
  returned (Reconcile r now req) = Return (result, err) -> result = ctrl.empty.
Proof.
  unfold Reconcile.
  destruct (Get_CertificateRequest (client r) req) as [cr|geterr].
  - unfold reconcileFetched.
    destruct (negb _); [simpl; congruence|].
    destruct (cmutil.CertificateRequestHasCondition _ _); [simpl; congruence|].
    destruct (reconcileOwned r now cr) as [cr1 e] eqn:Hrun.
    apply reconcileOwned_shape in Hrun as [Hresult _].
    unfold deferredUpdate.
    destruct e as [result0 err0|msg result0 err0]; simpl in *;
      destruct (Status_Update _ _); simpl; congruence.
  - destruct (negb _); simpl; congruence.
Qed.

(** X13. Whatever path an invocation takes, the request it ends with is the
    fetched one but for three things.  The name, namespace and spec are the
    same, and so are the conditions of every type other than Ready, in their
    order.  The failure time changes only from unset to the reading of the
    clock, and only for a denied request.  The certificate changes only to
    the empty one, and only when the request ends Ready=True with reason
    Issued. *)
Theorem Reconcile_frame (r : CertificateRequestReconciler) (now : Time)
    (cr cr' : CertificateRequest) :
  certificateRequest (reconcileFetched r now cr) = Some cr' ->
  framed cr cr'
  /\ (FailureTime (Status_ cr') = FailureTime (Status_ cr)
      \/ (FailureTime (Status_ cr) = None
          /\ cmutil.CertificateRequestIsDenied cr = true
          /\ FailureTime (Status_ cr') = Some (Clock_Now r)))
  /\ (Certificate (Status_ cr') = Certificate (Status_ cr)
      \/ (Certificate (Status_ cr') = []
          /\ exists ready,
              cmutil.GetCertificateRequestCondition cr'
                CertificateRequestConditionReady = Some ready
              /\ Status ready = cmmeta.ConditionTrue
              /\ Reason ready = CertificateRequestReasonIssued)).
Proof.
  unfold reconcileFetched.
  destruct (negb _);
    [simpl; intros Hcr; injection Hcr as <-; split; [apply framed_refl|auto]|].
  destruct (cmutil.CertificateRequestHasCondition _ _);
    [simpl; intros Hcr; injection Hcr as <-; split; [apply framed_refl|auto]|].
  destruct (reconcileOwned r now cr) as [cr1 e] eqn:Hrun.
  apply reconcileOwned_shape in Hrun as [_ Hshape].
  rewrite deferredUpdate_request. intros Hcr. injection Hcr as <-.
  destruct Hshape as [->|[(-> & reason & message & ->)
                         |[(-> & Hdenied & Hunset & message & ->)|(-> & ->)]]];
    cbn [spec.prior_error].
  - destruct (spec.prior_error e) as [err|].
    + split; [apply framed_setReadyCondition, framed_refl|].
      destruct (setReadyCondition_frame now cr cmmeta.ConditionFalse
                  CertificateRequestReasonPending (Error err))
        as (_ & _ & _ & -> & ->). auto.
    + split; [apply framed_refl|auto].
  - split; [apply framed_setReadyCondition, framed_refl|].
    destruct (setReadyCondition_frame now cr cmmeta.ConditionFalse reason message)
      as (_ & _ & _ & -> & ->). auto.
  - split; [apply framed_setReadyCondition; repeat split|].
    destruct (setReadyCondition_frame now (set_FailureTime cr (Some (Clock_Now r)))
                cmmeta.ConditionFalse CertificateRequestReasonDenied message)
      as (_ & _ & _ & -> & ->). simpl. auto.
  - split; [apply framed_setReadyCondition; repeat split|].
    destruct (setReadyCondition_frame now (set_Certificate cr [])
                cmmeta.ConditionTrue CertificateRequestReasonIssued "Signed")
      as (_ & _ & _ & -> & ->). simpl.
    split; [left; reflexivity|right]. split; [reflexivity|].
    destruct (setReadyCondition_get now (set_Certificate cr [])
                cmmeta.ConditionTrue CertificateRequestReasonIssued "Signed")
      as (ready & Hget & Hstatus & Hreason & _).
    eauto.
Qed.

(** X14. Every error of the body that [Reconcile] returns, alone or in an
    aggregate with the error of the status update, is also written to the
    request: the one request handed to the status update is Ready=False with
    reason Pending and the text of that error as message.  An aggregate of
    the update error alone means that the body had ended without error. *)
Theorem returned_error_is_recorded (r : CertificateRequestReconciler) (now : Time)
    (cr : CertificateRequest) (result : ctrl.Result) (err : error) :
  (returned (reconcileFetched r now cr) = Return (result, Some (Plain err))
   \/ exists updateErr,
       returned (reconcileFetched r now cr)
       = Return (result, Some (Aggregate [err; updateErr]))) ->
  exists cr' ready,
    updates (reconcileFetched r now cr) = [cr']
    /\ cmutil.GetCertificateRequestCondition cr' CertificateRequestConditionReady
       = Some ready
    /\ Status ready = cmmeta.ConditionFalse
    /\ Reason ready = CertificateRequestReasonPending
    /\ Message ready = Error err
    /\ spec.prior_error (snd (reconcileOwned r now cr)) = Some err.
Proof.
  unfold reconcileFetched.
  destruct (negb _); [simpl; intros [Hret|[u Hret]]; discriminate|].
  destruct (cmutil.CertificateRequestHasCondition _ _);
    [simpl; intros [Hret|[u Hret]]; discriminate|].
  destruct (reconcileOwned r now cr) as [cr1 e]. unfold deferredUpdate.
  assert (Hrecorded : forall err0,
             exists ready,
               cmutil.GetCertificateRequestCondition
                 (setReadyCondition now cr1 cmmeta.ConditionFalse
                    CertificateRequestReasonPending (Error err0))
                 CertificateRequestConditionReady = Some ready
               /\ Status ready = cmmeta.ConditionFalse
               /\ Reason ready = CertificateRequestReasonPending
               /\ Message ready = Error err0).
  { intros err0. apply setReadyCondition_get. }
  destruct e as [result0 [err0|]|msg result0 [err0|]]; simpl;
    destruct (Status_Update _ _) as [u0|]; simpl;
    intros [Hret|[u Hret]]; simplify_eq;
    match goal with
    | |- context [Error ?x] =>
        destruct (Hrecorded x) as (ready & Hget & Hst & Hrs & Hmsg)
    end;
    eexists _, ready; repeat split; eauto.
Qed.

(** X15. An invocation ends without a status update in two cases only.  The
    request could not be fetched: when it is not found this is no error, and
    any other failure of the read is returned as "unexpected get error".  Or
    the request is not ours to update (another group, or Ready=True
    already), and then it is left as it is and no error is returned. *)
Theorem Reconcile_without_update (r : CertificateRequestReconciler) (now : Time)
    (req : types.NamespacedName) :
  updates (Reconcile r now req) = [] ->
  (exists err,
     Get_CertificateRequest (client r) req = Err err
     /\ certificateRequest (Reconcile r now req) = None
     /\ returned (Reconcile r now req)
        = Return (ctrl.empty,
                  if IsNotFound (client r) err then None
                  else Some (Plain (errorString
                                      ("unexpected get error: " +:+ Error err)))))
  \/ (exists cr,
        Get_CertificateRequest (client r) req = Ok cr
        /\ ~ spec.owned cr
        /\ Reconcile r now req
           = {| returned := Return (ctrl.empty, None); updates := [];
                certificateRequest := Some cr |}).
Proof.
  unfold Reconcile.
  destruct (Get_CertificateRequest (client r) req) as [cr|err].
  - intros Hnone. right. exists cr. split; [reflexivity|].
    assert (Hnot : ~ spec.owned cr).
    { intros Howned. rewrite (reconcileFetched_owned _ _ _ Howned) in Hnone.
      unfold deferredUpdate in Hnone.
      destruct (snd (reconcileOwned r now cr)) as [result [err|]|msg result [err|]];
        simpl in Hnone; destruct (Status_Update _ _); discriminate. }
    split; [exact Hnot|]. apply reconcileFetched_not_owned, Hnot.
  - intros _. left. exists err. split; [reflexivity|].
    destruct (IsNotFound (client r) err); split; reflexivity.
Qed.

(** *** The gates and the terminal failures *)

(** X16. A request of ours that is Ready=True is left alone, whatever else its
    conditions say (approved, denied): no issuer or secret is read, no
    status update is made, and the request stays as it is; so an issued
    request is never signed again. *)
Theorem ready_request_is_ignored (r : CertificateRequestReconciler) (now : Time)
    (cr : CertificateRequest) :
  cmutil.CertificateRequestHasCondition cr spec.readyTrue = true ->
  reconcileFetched r now cr
  = {| returned := Return (ctrl.empty, None); updates := [];
       certificateRequest := Some cr |}.
Proof.
  intros Hready. apply reconcileFetched_not_owned.
  intros [_ Hnot]. congruence.
Qed.

(** X17. With approval checked, a request of ours that is neither denied nor
    approved is not touched, but it is still handed to the status update,
    once and unchanged; the error of that update, if any, is the only error
    returned. *)
Theorem unapproved_request_waits (r : CertificateRequestReconciler) (now : Time)
    (cr : CertificateRequest) :
  CheckApprovedCondition r = true ->
  spec.owned cr ->
  cmutil.CertificateRequestIsDenied cr = false ->
  cmutil.CertificateRequestIsApproved cr = false ->
  reconcileFetched r now cr
  = {| returned := update_result r cr; updates := [cr];
       certificateRequest := Some cr |}.
Proof.
  intros Hcheck Howned Hdenied Happroved.
  rewrite (reconcileFetched_owned _ _ _ Howned).
  unfold reconcileOwned. rewrite Hdenied, Hcheck, Happroved. simpl.
  unfold deferredUpdate, update_result. simpl.
  destruct (Status_Update _ _); reflexivity.
Qed.

(** X18. A request of ours that is not denied, is approved where approval is
    checked, and has no Ready condition yet gets one, appended after its
    other conditions: Ready=False, reason Pending, message "Initializing",
    stamped with the reading of the clock.  Nothing else happens in that
    invocation, and the request it leaves passes all the gates of the
    next. *)
Theorem first_invocation_initializes (r : CertificateRequestReconciler)
    (now : Time) (cr : CertificateRequest) :
  spec.owned cr ->
  cmutil.CertificateRequestIsDenied cr = false ->
  (CheckApprovedCondition r = true -> cmutil.CertificateRequestIsApproved cr = true) ->
  cmutil.GetCertificateRequestCondition cr CertificateRequestConditionReady = None ->
  let cr' :=
    set_Conditions cr
      (Conditions (Status_ cr)
       ++ [{| Type_ := CertificateRequestConditionReady;
              Status := cmmeta.ConditionFalse;
              LastTransitionTime := Some now;
              Reason := CertificateRequestReasonPending;
              Message := "Initializing" |}])%list in
  reconcileFetched r now cr
  = {| returned := update_result r cr'; updates := [cr'];
       certificateRequest := Some cr' |}
  /\ past_gates r cr'.
Proof.
  intros Howned Hdenied Happroved Hnone. cbv zeta.
  assert (Hset : setReadyCondition now cr cmmeta.ConditionFalse
                   CertificateRequestReasonPending "Initializing"
                 = set_Conditions cr
                     (Conditions (Status_ cr)
                      ++ [{| Type_ := CertificateRequestConditionReady;
                             Status := cmmeta.ConditionFalse;
                             LastTransitionTime := Some now;
                             Reason := CertificateRequestReasonPending;
                             Message := "Initializing" |}])%list).
  { unfold setReadyCondition, cmutil.SetCertificateRequestCondition.
    unfold cmutil.GetCertificateRequestCondition in Hnone.
    destruct (list_find _ (Conditions (Status_ cr))) as [[i c]|];
      [discriminate|reflexivity]. }
  split.
  - rewrite (reconcileFetched_owned _ _ _ Howned).
    unfold reconcileOwned. rewrite Hdenied, Hnone.
    assert (Hgate : CheckApprovedCondition r
                    && negb (cmutil.CertificateRequestIsApproved cr) = false).
    { destruct (CheckApprovedCondition r); [rewrite Happroved|]; reflexivity. }
    rewrite Hgate. simpl. rewrite Hset.
    unfold deferredUpdate, update_result. simpl.
    destruct (Status_Update _ _); reflexivity.
  - rewrite <- Hset. split; [|split; [|split]].
    + apply setReadyCondition_owned; [reflexivity|exact Howned].
    + rewrite setReadyCondition_denied. exact Hdenied.
    + intros Hcheck. unfold cmutil.CertificateRequestIsApproved.
      rewrite setReadyCondition_others; [apply Happroved, Hcheck|].
      intros c ->. reflexivity.
    + destruct (setReadyCondition_get now cr cmmeta.ConditionFalse
                  CertificateRequestReasonPending "Initializing")
        as (ready & Hget & _).
      rewrite Hget. eauto.
Qed.

(** X19. A kind that the scheme does not know, or knows and the reconciler does
    not handle, fails the request for good: it is set Ready=False with
    reason Failed and the text of the error, no issuer is read, and no error
    is returned unless the status update fails. *)
Theorem unrecognized_kind_is_terminal (r : CertificateRequestReconciler)
    (now : Time) (cr : CertificateRequest) (message : string) :
  past_gates r cr ->
  (exists err,
     Scheme_New r (cmmeta.Kind (IssuerRef (Spec cr))) = Err err
     /\ message = "error interpreting issuerRef: " +:+ Error err)
  \/ (exists fmt_v fmt_t,
        Scheme_New r (cmmeta.Kind (IssuerRef (Spec cr)))
        = Ok (ClientObject (v1alpha1.Other fmt_v fmt_t))
        /\ message = "unexpected issuer type: " +:+ fmt_v) ->
  let cr' := setReadyCondition now cr cmmeta.ConditionFalse
               CertificateRequestReasonFailed message in
  reconcileFetched r now cr
  = {| returned := update_result r cr'; updates := [cr'];
       certificateRequest := Some cr' |}.
Proof.
  intros (Howned & Hdenied & Happroved & [ready Hready]) Hkind. cbv zeta.
  rewrite (reconcileFetched_owned _ _ _ Howned).
  unfold reconcileOwned. rewrite Hdenied, Hready.
  assert (Hgate : CheckApprovedCondition r
                  && negb (cmutil.CertificateRequestIsApproved cr) = false).
  { destruct (CheckApprovedCondition r); [rewrite Happroved|]; reflexivity. }
  rewrite Hgate.
  destruct Hkind as [(err & -> & ->)|(fmt_v & fmt_t & -> & ->)]; simpl;
    unfold deferredUpdate, update_result; simpl;
    destruct (Status_Update _ _); reflexivity.
Qed.

(** X20. An issuer that is fetched and not ready stops the invocation with the
    error "issuer is not ready", which is returned and recorded under
    Ready=False with reason Pending; the secret is not read and the
    certificate and the failure time of the request stay as they are. *)
Theorem issuer_not_ready_is_retried (r : CertificateRequestReconciler)
    (now : Time) (cr : CertificateRequest)
    (issuerSpec : v1alpha1.IssuerSpec) (issuerStatus : v1alpha1.IssuerStatus) :
  past_gates r cr ->
  (exists spec0 status0,
     Scheme_New r (cmmeta.Kind (IssuerRef (Spec cr)))
     = Ok (ClientObject (v1alpha1.Issuer spec0 status0))
     /\ Get_Issuer (client r) (issuerKey cr) = Ok (issuerSpec, issuerStatus))
  \/ (exists spec0 status0,
        Scheme_New r (cmmeta.Kind (IssuerRef (Spec cr)))
        = Ok (ClientObject (v1alpha1.ClusterIssuer spec0 status0))
        /\ Get_ClusterIssuer (client r) (clusterIssuerKey cr)
           = Ok (issuerSpec, issuerStatus)) ->
  util.IsReady issuerStatus = false ->
  let cr' := setReadyCondition now cr cmmeta.ConditionFalse
               CertificateRequestReasonPending "issuer is not ready" in
  reconcileFetched r now cr
  = {| returned :=
         Return (ctrl.empty,
                 Some match Status_Update (client r) cr' with
                      | None => Plain errIssuerNotReady
                      | Some updateErr => Aggregate [errIssuerNotReady; updateErr]
                      end);
       updates := [cr'];
       certificateRequest := Some cr' |}
  /\ Certificate (Status_ cr') = Certificate (Status_ cr)
  /\ FailureTime (Status_ cr') = FailureTime (Status_ cr).
Proof.
  intros (Howned & Hdenied & Happroved & [ready Hready]) Hissuer Hnotready. cbv zeta.
  split.
  - rewrite (reconcileFetched_owned _ _ _ Howned).
    unfold reconcileOwned. rewrite Hdenied, Hready.
    assert (Hgate : CheckApprovedCondition r
                    && negb (cmutil.CertificateRequestIsApproved cr) = false).
    { destruct (CheckApprovedCondition r); [rewrite Happroved|]; reflexivity. }
    rewrite Hgate. unfold issuerKey, clusterIssuerKey in Hissuer.
    destruct Hissuer as [(spec0 & status0 & -> & Hget)|(spec0 & status0 & -> & Hget)];
      simpl; rewrite Hget; unfold reconcileIssuer; simpl; rewrite Hnotready; simpl;
      unfold deferredUpdate; simpl;
      destruct (Status_Update _ _); reflexivity.
  - destruct (setReadyCondition_frame now cr cmmeta.ConditionFalse
                CertificateRequestReasonPending "issuer is not ready")
      as (_ & _ & _ & -> & ->). auto.
Qed.

(** *** What is read from the cluster *)

(** X21. An invocation reads at most one issuer and one secret, under fixed
    keys.  A namespaced issuer is read under the name of [issuerRef] in the
    namespace of the request, and its secret in that namespace; a cluster
    issuer is read under that name with no namespace, and its secret in the
    cluster resource namespace of the reconciler; the secret is read under
    the [authSecretName] of the issuer fetched.  The outcome is the same in
    every cluster that answers those reads the same way. *)
Theorem Reconcile_reads_fixed_keys (r : CertificateRequestReconciler) (now : Time)
    (cr : CertificateRequest)
    (issuers clusterIssuers :
       types.NamespacedName -> result (v1alpha1.IssuerSpec * v1alpha1.IssuerStatus))
    (secrets : types.NamespacedName -> result (gmap string (list byte))) :
  issuers (issuerKey cr) = Get_Issuer (client r) (issuerKey cr) ->
  clusterIssuers (clusterIssuerKey cr)
  = Get_ClusterIssuer (client r) (clusterIssuerKey cr) ->
  (forall issuerSpec issuerStatus,
     Get_Issuer (client r) (issuerKey cr) = Ok (issuerSpec, issuerStatus) ->
     secrets (secretKey (Namespace cr) issuerSpec)
     = Get_Secret (client r) (secretKey (Namespace cr) issuerSpec)) ->
  (forall issuerSpec issuerStatus,
     Get_ClusterIssuer (client r) (clusterIssuerKey cr) = Ok (issuerSpec, issuerStatus) ->
     secrets (secretKey (ClusterResourceNamespace r) issuerSpec)
     = Get_Secret (client r) (secretKey (ClusterResourceNamespace r) issuerSpec)) ->
  reconcileFetched (with_reads r issuers clusterIssuers secrets) now cr
  = reconcileFetched r now cr.
Proof.
  intros Hissuer Hcluster Hsecret Hclustersecret.
  unfold issuerKey, clusterIssuerKey, secretKey in *.
  assert (Hbody : reconcileOwned (with_reads r issuers clusterIssuers secrets) now cr
                  = reconcileOwned r now cr).
  { unfold reconcileOwned. simpl.
    destruct (cmutil.CertificateRequestIsDenied cr); [reflexivity|].
    destruct (CheckApprovedCondition r && _); [reflexivity|].
    destruct (cmutil.GetCertificateRequestCondition _ _); [|reflexivity].
    destruct (Scheme_New r _) as [[[spec0 status0|spec0 status0|fmt_v fmt_t]|]|err];
      try reflexivity.
    - rewrite Hissuer.
      destruct (Get_Issuer (client r) _) as [[issuerSpec issuerStatus]|err] eqn:Hget;
        [|reflexivity].
      unfold reconcileIssuer. simpl.
      destruct (negb (util.IsReady issuerStatus)); [reflexivity|].
      rewrite (Hsecret issuerSpec issuerStatus eq_refl). reflexivity.
    - rewrite Hcluster.
      destruct (Get_ClusterIssuer (client r) _) as [[issuerSpec issuerStatus]|err]
        eqn:Hget; [|reflexivity].
      unfold reconcileIssuer. simpl.
      destruct (negb (util.IsReady issuerStatus)); [reflexivity|].
      rewrite (Hclustersecret issuerSpec issuerStatus eq_refl). reflexivity. }
  unfold reconcileFetched. rewrite Hbody. reflexivity.
Qed.

End ReconcilerMore.

(** ** Further runs on concrete inputs *)

Section MoreScenarios.
Import cmapi controllers notions.
#[local] Existing Instance fake.libraries.
#[local] Existing Instance fake.package.

(** The same vault name in two clouds with the same DNS suffix. *)
Lemma getVaultURL_injective_witness :
  getVaultURL fake.AzurePublicCloud "my-vault1" = Ok "https://my-vault1.vault.azure.net/"
  /\ getVaultURL fake.noDirectoryCloud "my-vault1" = Ok "https://my-vault1.vault.azure.net/"
  /\ KeyVaultDNSSuffix fake.AzurePublicCloud = KeyVaultDNSSuffix fake.noDirectoryCloud.
Proof.
  assert (H1 : getVaultURL fake.AzurePublicCloud "my-vault1"
               = Ok "https://my-vault1.vault.azure.net/") by reflexivity.
  assert (H2 : getVaultURL fake.noDirectoryCloud "my-vault1"
               = Ok "https://my-vault1.vault.azure.net/") by reflexivity.
  split; [exact H1|]. split; [exact H2|].
  exact (proj2 (getVaultURL_injective _ _ _ _ _ H1 H2)).
Defined.

(** The secret of the scenario with and without the key [cloud], and with a
    key that the parser does not know. *)
Lemma getConfigFromSecretData_reads_six_keys_witness :
  Forall (fun key => at_key fake.servicePrincipalSecret key
                     = at_key fixtures.scenarioSecret key)
    [cloudKey; tenantIDKey; aadClientIDKey; aadClientSecretKey;
     useManagedIdentityKey; userAssignedIdentityIDKey]
  /\ getConfigFromSecretData fake.servicePrincipalSecret
     = getConfigFromSecretData fixtures.scenarioSecret.
Proof.
  assert (Hsame : Forall (fun key => at_key fake.servicePrincipalSecret key
                                     = at_key fixtures.scenarioSecret key)
                    [cloudKey; tenantIDKey; aadClientIDKey; aadClientSecretKey;
                     useManagedIdentityKey; userAssignedIdentityIDKey]).
  { repeat constructor; vm_compute; reflexivity. }
  split; [exact Hsame|].
  exact (getConfigFromSecretData_reads_six_keys _ _ Hsame).
Defined.

(** A user-assigned identity: the same token for two resources. *)
Lemma managed_identity_ignores_client_credentials_witness :
  useManagedIdentity fake.userAssignedConfig = true
  /\ userAssignedIdentityID fake.userAssignedConfig <> ""
  /\ getServicePrincipalToken fake.userAssignedConfig fake.AzurePublicCloud
       "https://vault.azure.net"
     = getServicePrincipalToken fake.userAssignedConfig fake.AzurePublicCloud
         "https://vault.example".
Proof.
  assert (Hid : userAssignedIdentityID fake.userAssignedConfig <> "") by discriminate.
  split; [reflexivity|]. split; [exact Hid|].
  exact (proj2 managed_identity_ignores_client_credentials
           fake.userAssignedConfig fake.AzurePublicCloud _ _ eq_refl Hid).
Defined.

(** An endpoint that ends with two slashes keeps one. *)
Lemma getKeyvaultToken_strips_one_slash_witness :
  KeyVaultEndpoint fixtures.doubleSlashCloud <> ""
  /\ getKeyvaultToken fake.servicePrincipalConfig fixtures.doubleSlashCloud
     = Return (Ok (fake.FromSecret ("https://login.microsoftonline.com/", "t")
                     "c" "s" "https://vault.azure.net/"))
  /\ exists resource,
      getKeyvaultToken fake.servicePrincipalConfig fixtures.doubleSlashCloud
      = Return match getServicePrincipalToken fake.servicePrincipalConfig
                       fixtures.doubleSlashCloud resource with
               | Err err => Err err
               | Ok servicePrincipalToken =>
                   Ok (NewBearerAuthorizer servicePrincipalToken)
               end
      /\ (KeyVaultEndpoint fixtures.doubleSlashCloud = resource +:+ "/"
          \/ (KeyVaultEndpoint fixtures.doubleSlashCloud = resource
              /\ forall p, resource <> p +:+ "/")).
Proof.
  assert (Hne : KeyVaultEndpoint fixtures.doubleSlashCloud <> "") by discriminate.
  split; [exact Hne|]. split; [reflexivity|].
  exact (getKeyvaultToken_strips_one_slash fake.servicePrincipalConfig
           fixtures.doubleSlashCloud Hne).
Defined.

(** The signer of the end-to-end scenario. *)
Lemma NewSigner_success_witness :
  NewSigner fake.servicePrincipalSecret "my-vault1" = Return (Ok fixtures.signer)
  /\ spec.valid_vault_name "my-vault1"
  /\ exists config env,
      getConfigFromSecretData fake.servicePrincipalSecret = Ok config
      /\ parseCloudEnvironment (cloud config) = Ok env
      /\ KeyVaultEndpoint env <> ""
      /\ vaultURL fixtures.signer
         = "https://" +:+ "my-vault1" +:+ "." +:+ KeyVaultDNSSuffix env +:+ "/"
      /\ (useManagedIdentity config = true
          \/ (aadClientID config <> "" /\ aadClientSecret config <> "")).
Proof.
  assert (Hrun : NewSigner fake.servicePrincipalSecret "my-vault1"
                 = Return (Ok fixtures.signer)) by (vm_compute; reflexivity).
  split; [exact Hrun|].
  exact (NewSigner_success _ _ _ Hrun).
Defined.

(** A secret that names a cloud whose environment has no vault endpoint. *)
Lemma NewSigner_panics_only_on_empty_endpoint_witness :
  NewSigner (L := fixtures.stackLibraries) fixtures.stackSecret "my-vault1"
  = Panic index_out_of_range
  /\ spec.valid_vault_name "my-vault1"
  /\ exists kvClient config env,
      AddToUserAgent (Libraries := fixtures.stackLibraries)
        (kv_New (Libraries := fixtures.stackLibraries)) "cert-manager-issuer"
      = (kvClient, None)
      /\ getConfigFromSecretData (L := fixtures.stackLibraries) fixtures.stackSecret
         = Ok config
      /\ parseCloudEnvironment (L := fixtures.stackLibraries) (cloud config) = Ok env
      /\ KeyVaultEndpoint env = "".
Proof.
  assert (Hrun : NewSigner (L := fixtures.stackLibraries) fixtures.stackSecret
                   "my-vault1" = Panic index_out_of_range)
    by (vm_compute; reflexivity).
  split; [exact Hrun|].
  exact (proj2 (NewSigner_panics_only_on_empty_endpoint
                  (L := fixtures.stackLibraries) _ _ _ Hrun)).
Defined.

(** The secret of the scenario, under both revisions of the signer. *)
Lemma first_revision_accepts_more_witness :
  NewSigner fake.servicePrincipalSecret "my-vault1" = Return (Ok fixtures.signer)
  /\ exists kvClient,
      signer0.NewSigner fake.servicePrincipalSecret "my-vault1"
      = Ok {| signer0.baseClient := kvClient |}
      /\ exists authorizer,
          baseClient fixtures.signer = set_Authorizer kvClient authorizer.
Proof.
  assert (Hrun : NewSigner fake.servicePrincipalSecret "my-vault1"
                 = Return (Ok fixtures.signer)) by (vm_compute; reflexivity).
  split; [exact Hrun|].
  exact (proj2 (first_revision_accepts_more fake.servicePrincipalSecret "my-vault1")
           fixtures.signer Hrun).
Defined.

(** A pod of the namespace kube-system: the newline of the file is kept. *)
Lemma getInClusterNamespace_outcomes_witness :
  Stat (OS := fixtures.inCluster) main.inClusterNamespacePath = None
  /\ ReadFile (OS := fixtures.inCluster) main.inClusterNamespacePath
     = Ok (bytes_of_string ("kube-system" +:+ fixtures.newline))
  /\ main.getInClusterNamespace (O := fixtures.inCluster)
     = Ok (string_of_bytes (bytes_of_string ("kube-system" +:+ fixtures.newline))).
Proof.
  split; [reflexivity|]. split; [reflexivity|].
  apply (proj1 (getInClusterNamespace_outcomes (O := fixtures.inCluster))).
  split; [reflexivity|]. eexists. split; reflexivity.
Defined.

(** A failed signer build: the result is empty. *)
Lemma Reconcile_never_requeues_witness :
  returned (fake.run fake.approvedRequest ∅ None)
  = Return (ctrl.empty,
            Some (Plain (errorString
                           "failed to get issuer client for my-ca: no credentials provided for accessing keyvault")))
  /\ ctrl.empty = ctrl.empty.
Proof.
  assert (Hrun : returned (fake.run fake.approvedRequest ∅ None)
                 = Return (ctrl.empty,
                           Some (Plain (errorString
                                          "failed to get issuer client for my-ca: no credentials provided for accessing keyvault"))))
    by (vm_compute; reflexivity).
  split; [exact Hrun|].
  exact (Reconcile_never_requeues _ _ _ _ _ Hrun).
Defined.

(** The denial of a request: its Denied condition and its spec stay, and
    the failure time is set. *)
Lemma Reconcile_frame_witness :
  certificateRequest
    (reconcileFetched (fake.reconciler fake.deniedRequest ∅ None) 2000 fake.deniedRequest)
  = Some fake.failedRequest
  /\ framed fake.deniedRequest fake.failedRequest
  /\ otherConditions fake.failedRequest
     = [fake.condition "Denied" "True" "policy.cert-manager.io"].
Proof.
  assert (Hrun : certificateRequest
                   (reconcileFetched (fake.reconciler fake.deniedRequest ∅ None)
                      2000 fake.deniedRequest)
                 = Some fake.failedRequest) by (vm_compute; reflexivity).
  split; [exact Hrun|].
  split; [exact (proj1 (Reconcile_frame _ _ _ _ Hrun))|reflexivity].
Defined.

(** A failed signer build: the error returned is the message recorded. *)
Lemma returned_error_is_recorded_witness :
  let err := errorString
               "failed to get issuer client for my-ca: no credentials provided for accessing keyvault" in
  let r := fake.reconciler fake.approvedRequest ∅ None in
  returned (reconcileFetched r 2000 fake.approvedRequest)
  = Return (ctrl.empty, Some (Plain err))
  /\ exists cr' ready,
      updates (reconcileFetched r 2000 fake.approvedRequest) = [cr']
      /\ cmutil.GetCertificateRequestCondition cr' CertificateRequestConditionReady
         = Some ready
      /\ Status ready = cmmeta.ConditionFalse
      /\ Reason ready = CertificateRequestReasonPending
      /\ Message ready = Error err
      /\ spec.prior_error (snd (reconcileOwned r 2000 fake.approvedRequest)) = Some err.
Proof.
  intros err r.
  assert (Hrun : returned (reconcileFetched r 2000 fake.approvedRequest)
                 = Return (ctrl.empty, Some (Plain err)))
    by (vm_compute; reflexivity).
  split; [exact Hrun|].
  exact (returned_error_is_recorded r 2000 fake.approvedRequest ctrl.empty err
           (or_introl Hrun)).
Defined.

(** A request that is gone from the cluster. *)
Lemma Reconcile_without_update_witness :
  updates (Reconcile fixtures.emptyCluster 2000 fake.key) = []
  /\ returned (Reconcile fixtures.emptyCluster 2000 fake.key)
     = Return (ctrl.empty, None)
  /\ ((exists err,
         Get_CertificateRequest (client fixtures.emptyCluster) fake.key = Err err
         /\ certificateRequest (Reconcile fixtures.emptyCluster 2000 fake.key) = None
         /\ returned (Reconcile fixtures.emptyCluster 2000 fake.key)
            = Return (ctrl.empty,
                      if IsNotFound (client fixtures.emptyCluster) err then None
                      else Some (Plain (errorString
                                          ("unexpected get error: " +:+ Error err)))))
      \/ (exists cr,
            Get_CertificateRequest (client fixtures.emptyCluster) fake.key = Ok cr
            /\ ~ spec.owned cr
            /\ Reconcile fixtures.emptyCluster 2000 fake.key
               = {| returned := Return (ctrl.empty, None); updates := [];
                    certificateRequest := Some cr |})).
Proof.
  assert (Hnone : updates (Reconcile fixtures.emptyCluster 2000 fake.key) = [])
    by reflexivity.
  split; [exact Hnone|]. split; [reflexivity|].
  exact (Reconcile_without_update fixtures.emptyCluster 2000 fake.key Hnone).
Defined.

(** The issued request of the end-to-end scenario, reconciled again. *)
Lemma ready_request_is_ignored_witness :
  cmutil.CertificateRequestHasCondition fake.issuedRequest spec.readyTrue = true
  /\ reconcileFetched (fake.reconciler fake.issuedRequest fake.servicePrincipalSecret None)
       3000 fake.issuedRequest
     = {| returned := Return (ctrl.empty, None); updates := [];
          certificateRequest := Some fake.issuedRequest |}.
Proof.
  split; [reflexivity|].
  exact (ready_request_is_ignored _ 3000 fake.issuedRequest eq_refl).
Defined.

(** A request that waits for its approval. *)
Lemma unapproved_request_waits_witness :
  let r := fake.reconciler fixtures.unapprovedRequest fake.servicePrincipalSecret None in
  CheckApprovedCondition r = true
  /\ spec.owned fixtures.unapprovedRequest
  /\ cmutil.CertificateRequestIsDenied fixtures.unapprovedRequest = false
  /\ cmutil.CertificateRequestIsApproved fixtures.unapprovedRequest = false
  /\ reconcileFetched r 2000 fixtures.unapprovedRequest
     = {| returned := Return (ctrl.empty, None);
          updates := [fixtures.unapprovedRequest];
          certificateRequest := Some fixtures.unapprovedRequest |}.
Proof.
  intros r.
  assert (Howned : spec.owned fixtures.unapprovedRequest) by (split; reflexivity).
  split; [reflexivity|]. split; [exact Howned|].
  split; [reflexivity|]. split; [reflexivity|].
  exact (unapproved_request_waits r 2000 fixtures.unapprovedRequest
           eq_refl Howned eq_refl eq_refl).
Defined.

(** An approved request seen for the first time. *)
Lemma first_invocation_initializes_witness :
  let r := fake.reconciler fixtures.freshRequest fake.servicePrincipalSecret None in
  spec.owned fixtures.freshRequest
  /\ cmutil.GetCertificateRequestCondition fixtures.freshRequest
       CertificateRequestConditionReady = None
  /\ exists cr',
      reconcileFetched r 2000 fixtures.freshRequest
      = {| returned := update_result r cr'; updates := [cr'];
           certificateRequest := Some cr' |}
      /\ past_gates r cr'.
Proof.
  intros r.
  assert (Howned : spec.owned fixtures.freshRequest) by (split; reflexivity).
  split; [exact Howned|]. split; [reflexivity|].
  eexists.
  exact (first_invocation_initializes r 2000 fixtures.freshRequest
           Howned eq_refl (fun _ => eq_refl) eq_refl).
Defined.

(** A request for an issuer of kind UnknownKind. *)
Lemma unrecognized_kind_is_terminal_witness :
  let r := fake.reconciler fixtures.unknownKindRequest fake.servicePrincipalSecret None in
  past_gates r fixtures.unknownKindRequest
  /\ exists message,
      reconcileFetched r 2000 fixtures.unknownKindRequest
      = {| returned :=
             Return (ctrl.empty, None);
           updates :=
             [setReadyCondition 2000 fixtures.unknownKindRequest
                cmmeta.ConditionFalse CertificateRequestReasonFailed message];
           certificateRequest :=
             Some (setReadyCondition 2000 fixtures.unknownKindRequest
                     cmmeta.ConditionFalse CertificateRequestReasonFailed message) |}.
Proof.
  intros r.
  assert (Hpast : past_gates r fixtures.unknownKindRequest).
  { split; [split; reflexivity|]. split; [reflexivity|].
    split; [intros _; reflexivity|]. eexists. reflexivity. }
  split; [exact Hpast|].
  eexists.
  apply (unrecognized_kind_is_terminal r 2000 fixtures.unknownKindRequest _ Hpast).
  left. eexists. split; reflexivity.
Defined.

(** An approved request whose issuer is not ready. *)
Lemma issuer_not_ready_is_retried_witness :
  let r := fixtures.notReadyReconciler fake.approvedRequest in
  past_gates r fake.approvedRequest
  /\ util.IsReady fake.zeroIssuerStatus = false
  /\ reconcileFetched r 2000 fake.approvedRequest
     = {| returned := Return (ctrl.empty, Some (Plain errIssuerNotReady));
          updates := [fake.pendingRequest "issuer is not ready"];
          certificateRequest := Some (fake.pendingRequest "issuer is not ready") |}.
Proof.
  intros r.
  assert (Hpast : past_gates r fake.approvedRequest).
  { split; [split; reflexivity|]. split; [reflexivity|].
    split; [intros _; reflexivity|]. eexists. reflexivity. }
  split; [exact Hpast|]. split; [reflexivity|].
  refine (proj1 (issuer_not_ready_is_retried r 2000 fake.approvedRequest
                   fake.issuerSpec fake.zeroIssuerStatus Hpast _ eq_refl)).
  left. eexists _, _. split; reflexivity.
Defined.

(** A cluster that holds the issuer and the secret under the keys of the
    request only. *)
Lemma Reconcile_reads_fixed_keys_witness :
  reconcileFetched (fixtures.narrowReconciler fake.approvedRequest) 2000
    fake.approvedRequest
  = reconcileFetched
      (fake.reconciler fake.approvedRequest fake.servicePrincipalSecret None) 2000
      fake.approvedRequest
  /\ certificateRequest
       (reconcileFetched (fixtures.narrowReconciler fake.approvedRequest) 2000
          fake.approvedRequest)
     = Some fake.issuedRequest.
Proof.
  split; [|vm_compute; reflexivity].
  apply Reconcile_reads_fixed_keys.
  - reflexivity.
  - reflexivity.
  - intros issuerSpec issuerStatus Hget. injection Hget as <- _. reflexivity.
  - intros issuerSpec issuerStatus Hget. discriminate Hget.
Defined.

End MoreScenarios.
